(** * Zabbix configuration export: a shallow embedding of [main.go]

    The program logs in to a Zabbix server, lists the hosts, and for each
    host writes [host.xml], [metrics.json] and [triggers.json] under a
    directory named after the host.  The embedding keeps the shape of the
    Go source: values decoded into [interface{}] are the type [json], the
    calls that touch the network, the disk and the console run in a state
    monad over [World], and the two ways a Go process stops early
    ([log.Fatalf] and a run-time panic) are outcomes of that monad. *)

From Stdlib Require Import Floats.SpecFloat.
From stdpp Require Import gmap strings list fin_maps.

(** ** Values decoded by [encoding/json] into [interface{}]

    [json.Unmarshal] stores [nil] for null, [bool], [float64], [string],
    [[]interface{}] and [map[string]interface{}]. *)

#[warnings="-register-all"]
Inductive json : Type :=
| JNull
| JBool (b : bool)
| JNum (x : spec_float)
| JStr (s : string)
| JArr (l : list json)
| JObj (m : gmap string json).

(** [data[key]] on a Go map: the zero value ([nil]) when the key is absent. *)
Definition index (data : gmap string json) (key : string) : json :=
  default JNull (data !! key).

(** Type assertions.  [None] is the failed assertion: [ok = false] in the
    comma-ok form, a run-time panic in the single-value form. *)
Definition as_string (v : json) : option string :=
  match v with JStr s => Some s | _ => None end.

Definition as_slice (v : json) : option (list json) :=
  match v with JArr l => Some l | _ => None end.

Definition as_map (v : json) : option (gmap string json) :=
  match v with JObj m => Some m | _ => None end.

(** [v == nil] on an [interface{}]. *)
Definition is_nil (v : json) : bool :=
  match v with JNull => true | _ => false end.

(** ** The structs of [main.go] (lines 15-70) *)

Record ZabbixError := {
  Code : Z;
  Message : string;
  Data : string
}.

Record ZabbixResponse := {
  Jsonrpc : string;
  Result : json;
  Error : ZabbixError;
  Id : Z
}.

Record Group := { GroupID : string; Group_Name : string }.

Record Template := { TemplateID : string; Template_Name : string }.

Record Interface := {
  InterfaceID : string;
  Interface_IPAddress : string;
  Port : string;
  Interface_Type : string
}.

(** [xml.Name], the type of the [XMLName] field of [Host]. *)
Record xml_Name := { Space : string; Local : string }.

Record Host := {
  XMLName : xml_Name;
  HostID : string;
  HostName : string;
  IPAddress : string;
  Status : string;
  Availability : string;
  Notes : string;
  Groups : list Group;
  Templates : list Template;
  Interfaces : list Interface
}.

Record Metric := {
  ItemID : string;
  Metric_Name : string;
  Key : string;
  Value : string
}.

Record Trigger := {
  TriggerID : string;
  Description : string;
  Priority : string;
  Trigger_Status : string
}.

(** The [data interface{}] argument of [saveToXML] and [saveToJSON]: the
    three kinds of value the program hands to them. *)
Inductive payload :=
| OfHost (h : Host)
| OfMetrics (ms : list Metric)
| OfTriggers (ts : list Trigger).

(** ** Projection of decoded records (pure part of the loops)

    In the option monad, [None] is a run-time panic. *)

(** Lines 335-342. *)
Definition getStringFromMap (data : gmap string json) (key : string) : string :=
  match data !! key with
  | Some val =>
      match as_string val with
      | Some strVal => strVal
      | None => ""
      end
  | None => ""
  end.

(** Lines 184-189: both comparisons assert the flag to be a string. *)
Definition availabilityOf (data : gmap string json) : option string :=
  a ← as_string (index data "available");
  if String.eqb a "1" then Some "Available"
  else
    b ← as_string (index data "available");
    if String.eqb b "0" then Some "Unavailable" else Some "Unknown".

(** Line 194:
    [data["interfaces"].([]interface{})[0].(map[string]interface{})["ip"].(string)]. *)
Definition firstInterfaceIP (data : gmap string json) : option string :=
  ifs ← as_slice (index data "interfaces");
  first ← ifs !! 0%nat;
  m ← as_map first;
  as_string (index m "ip").

(** Lines 191-197: the struct literal; the remaining fields are zero. *)
Definition hostLiteral (data : gmap string json) (availability : string)
  : option Host :=
  hostid ← as_string (index data "hostid");
  name ← as_string (index data "name");
  ip ← firstInterfaceIP data;
  status ← as_string (index data "status");
  Some {| XMLName := {| Space := ""; Local := "" |};
          HostID := hostid; HostName := name; IPAddress := ip;
          Status := status; Availability := availability;
          Notes := ""; Groups := []; Templates := []; Interfaces := [] |}.

(** Lines 199-201. *)
Definition notesOf (data : gmap string json) : string :=
  match as_string (index data "description") with
  | Some desc => desc
  | None => ""
  end.

(** Lines 205-209, one iteration. *)
Definition projectGroup (group : json) : option Group :=
  groupData ← as_map group;
  gid ← as_string (index groupData "groupid");
  name ← as_string (index groupData "name");
  Some {| GroupID := gid; Group_Name := name |}.

(** Lines 203-211. *)
Definition groupsOf (data : gmap string json) : option (list Group) :=
  match as_slice (index data "groups") with
  | Some groups => mapM projectGroup groups
  | None => Some []
  end.

(** Lines 215-219, one iteration. *)
Definition projectTemplate (template : json) : option Template :=
  templateData ← as_map template;
  tid ← as_string (index templateData "templateid");
  name ← as_string (index templateData "name");
  Some {| TemplateID := tid; Template_Name := name |}.

(** Lines 213-221. *)
Definition templatesOf (data : gmap string json) : option (list Template) :=
  match as_slice (index data "parentTemplates") with
  | Some templates => mapM projectTemplate templates
  | None => Some []
  end.

(** Lines 183-221: one host record to a [Host]. *)
Definition projectHost (item : json) : option Host :=
  data ← as_map item;
  availability ← availabilityOf data;
  host ← hostLiteral data availability;
  groups ← groupsOf data;
  templates ← templatesOf data;
  Some {| XMLName := XMLName host;
          HostID := HostID host; HostName := HostName host;
          IPAddress := IPAddress host; Status := Status host;
          Availability := Availability host;
          Notes := notesOf data;
          Groups := groups; Templates := templates;
          Interfaces := Interfaces host |}.

(** Lines 266-273, one iteration: every field is an unchecked assertion. *)
Definition projectMetric (item : json) : option Metric :=
  data ← as_map item;
  itemid ← as_string (index data "itemid");
  name ← as_string (index data "name");
  key ← as_string (index data "key_");
  lastvalue ← as_string (index data "lastvalue");
  Some {| ItemID := itemid; Metric_Name := name; Key := key;
          Value := lastvalue |}.

(** Lines 320-325: the fields of a trigger, read defensively. *)
Definition triggerOfMap (data : gmap string json) : Trigger :=
  {| TriggerID := getStringFromMap data "triggerid";
     Description := getStringFromMap data "description";
     Priority := getStringFromMap data "priority";
     Trigger_Status := getStringFromMap data "status" |}.

(** Lines 319-326, one iteration: the record itself is asserted to be a map. *)
Definition projectTrigger (trigger : json) : option Trigger :=
  data ← as_map trigger;
  Some (triggerOfMap data).

(** ** The world outside the process *)

(** One JSON-RPC call as [client.R().SetBody(...).Post(url)] sends it.  The
    fields [jsonrpc = "2.0"], [id = 1] and the [Content-Type] header are
    the same in all four calls and are left out; [req_auth] is [None] for
    [user.login], whose body has no [auth] key. *)
Record Request := {
  req_url : string;
  req_method : string;
  req_params : json;
  req_auth : option string
}.

(** What [Post] returns: [err != nil], or a response whose body is read. *)
Inductive Reply :=
| TransportError (err : string)
| Response (body : string).

(** A Go [(value, error)] pair. *)
Inductive goresult (A : Type) :=
| GoOk (a : A)
| GoErr (err : string).
Arguments GoOk {A} a.
Arguments GoErr {A} err.

(** What a run leaves behind.  [dirs] lists the paths given to
    [os.MkdirAll] in call order: line 225 discards its error, so a
    directory that could not be made shows up only as the failure of the
    [os.WriteFile] calls below it.  [logged] holds the messages given to
    the [log] package and [printed] the lines given to [fmt], both without
    the final newline (and without the time stamp [log] puts in front). *)
Record World := {
  sent : list Request;
  dirs : list string;
  files : gmap string string;
  logged : list string;
  printed : list string
}.

(** The parts of a run that [main.go] does not decide: the [.env] file and
    the process environment, the server (its reply may depend on the
    requests made before), the codecs of the Go library, and whether a
    file can be written. *)
Record Environment := {
  godotenv_Load : bool;
  os_Getenv : string → string;
  client_Post : list Request → Request → Reply;
  json_Unmarshal : string → goresult ZabbixResponse;
  xml_MarshalIndent : payload → goresult string;
  json_MarshalIndent : payload → goresult string;
  os_WriteFile_err : World → string → string → option string
}.

(** How a piece of the program ends: it returns, [log.Fatal*] exits the
    process, or a failed assertion or index panics. *)
Inductive Outcome (A : Type) :=
| Done (a : A)
| Exited
| Panicked.
Arguments Done {A} a.
Arguments Exited {A}.
Arguments Panicked {A}.

Definition M (A : Type) : Type := World → Outcome A * World.

#[global] Instance M_ret : MRet M := λ A a w, (Done a, w).

#[global] Instance M_bind : MBind M := λ A B f m w,
  match m w with
  | (Done a, w') => f a w'
  | (Exited, w') => (Exited, w')
  | (Panicked, w') => (Panicked, w')
  end.

(** An unchecked assertion or index: panics on [None]. *)
Definition must {A} (o : option A) : M A := λ w,
  match o with
  | Some a => (Done a, w)
  | None => (Panicked, w)
  end.

Definition with_logged (line : string) (w : World) : World :=
  {| sent := sent w; dirs := dirs w; files := files w;
     logged := logged w ++ [line]; printed := printed w |}.

Definition with_printed (line : string) (w : World) : World :=
  {| sent := sent w; dirs := dirs w; files := files w;
     logged := logged w; printed := printed w ++ [line] |}.

Definition with_sent (req : Request) (w : World) : World :=
  {| sent := sent w ++ [req]; dirs := dirs w; files := files w;
     logged := logged w; printed := printed w |}.

Definition with_dir (path : string) (w : World) : World :=
  {| sent := sent w; dirs := dirs w ++ [path]; files := files w;
     logged := logged w; printed := printed w |}.

Definition with_file (path content : string) (w : World) : World :=
  {| sent := sent w; dirs := dirs w; files := <[path := content]> (files w);
     logged := logged w; printed := printed w |}.

(** [log.Printf] and [log.Println]. *)
Definition log_Print (line : string) : M unit := λ w,
  (Done (), with_logged line w).

(** [log.Fatal] and [log.Fatalf]: the message, then [os.Exit(1)]. *)
Definition log_Fatal {A} (line : string) : M A := λ w,
  (Exited, with_logged line w).

(** [fmt.Println] and [fmt.Printf] of one line. *)
Definition fmt_Print (line : string) : M unit := λ w,
  (Done (), with_printed line w).

(** [os.MkdirAll(path, 0755)], its result dropped. *)
Definition os_MkdirAll (path : string) : M unit := λ w,
  (Done (), with_dir path w).

(** [for _, x := range l { body x }]. *)
Fixpoint for_range {A} (body : A → M unit) (l : list A) : M unit :=
  match l with
  | [] => mret ()
  | x :: rest => body x ;; for_range body rest
  end.

(** [xml.Header]. *)
Definition dquote : string := String (Ascii.ascii_of_nat 34) "".
Definition newline : string := String (Ascii.ascii_of_nat 10) "".
Definition xml_Header : string :=
  "<?xml version=" +:+ dquote +:+ "1.0" +:+ dquote
  +:+ " encoding=" +:+ dquote +:+ "UTF-8" +:+ dquote +:+ "?>" +:+ newline.

(** The four request bodies (lines 115-123, 153-164, 240-249, 283-292). *)
Definition loginRequest (server user password : string) : Request :=
  {| req_url := server;
     req_method := "user.login";
     req_params := JObj {[ "user" := JStr user; "password" := JStr password ]};
     req_auth := None |}.

Definition hostGetRequest (server token : string) : Request :=
  {| req_url := server;
     req_method := "host.get";
     req_params :=
       JObj {[ "output" := JStr "extend";
               "selectGroups" := JStr "extend";
               "selectTemplates" := JStr "extend";
               "selectInterfaces" :=
                 JArr [JStr "interfaceid"; JStr "ip"; JStr "port"; JStr "type"] ]};
     req_auth := Some token |}.

Definition itemGetRequest (server token hostID : string) : Request :=
  {| req_url := server;
     req_method := "item.get";
     req_params := JObj {[ "output" := JStr "extend"; "hostids" := JStr hostID ]};
     req_auth := Some token |}.

Definition triggerGetRequest (server token hostID : string) : Request :=
  {| req_url := server;
     req_method := "trigger.get";
     req_params :=
       JObj {[ "output" := JStr "extend"; "hostids" := JArr [JStr hostID] ]};
     req_auth := Some token |}.

(** ** The program *)

Section Program.

Variable E : Environment.

(** [client.R()...Post(url)]: the request goes out, the server answers. *)
Definition post (req : Request) : M Reply := λ w,
  (Done (client_Post E (sent w) req), with_sent req w).

(** [os.WriteFile(path, content, 0644)]. *)
Definition os_WriteFile (path content : string) : M (option string) := λ w,
  match os_WriteFile_err E w path content with
  | Some err => (Done (Some err), w)
  | None => (Done None, with_file path content w)
  end.

(** Lines 73-84. *)
Definition saveToXML (filename : string) (data : payload) : M unit :=
  match xml_MarshalIndent E data with
  | GoErr err => log_Fatal ("Ошибка при преобразовании данных в XML: " +:+ err)
  | GoOk xmlData =>
      werr ← os_WriteFile filename (xml_Header +:+ xmlData);
      match werr with
      | Some err =>
          log_Fatal ("Ошибка при сохранении XML-файла " +:+ filename +:+ ": " +:+ err)
      | None => mret ()
      end
  end.

(** Lines 87-97. *)
Definition saveToJSON (filename : string) (data : payload) : M unit :=
  match json_MarshalIndent E data with
  | GoErr err => log_Fatal ("Ошибка при преобразовании данных в JSON: " +:+ err)
  | GoOk jsonData =>
      werr ← os_WriteFile filename jsonData;
      match werr with
      | Some err =>
          log_Fatal ("Ошибка при сохранении JSON-файла " +:+ filename +:+ ": " +:+ err)
      | None => mret ()
      end
  end.

(** Lines 237-278. *)
Definition exportMetricsForHost (token server hostDir hostID : string) : M unit :=
  resp ← post (itemGetRequest server token hostID);
  match resp with
  | TransportError err =>
      log_Print ("Ошибка при получении метрик для хоста " +:+ hostID +:+ ": " +:+ err)
  | Response body =>
      match json_Unmarshal E body with
      | GoErr err =>
          log_Print ("Ошибка при разборе метрик хоста " +:+ hostID +:+ ": " +:+ err)
      | GoOk result =>
          items ← must (as_slice (Result result));
          metrics ← must (mapM projectMetric items);
          saveToJSON (hostDir +:+ "/metrics.json") (OfMetrics metrics);;
          fmt_Print ("Метрики успешно экспортированы для хоста " +:+ hostID
                     +:+ " в " +:+ hostDir +:+ "/metrics.json")
      end
  end.

(** Lines 280-332. *)
Definition exportTriggersForHost (token server hostDir hostID : string) : M unit :=
  resp ← post (triggerGetRequest server token hostID);
  match resp with
  | TransportError err =>
      log_Print ("Ошибка при запросе триггеров для хоста " +:+ hostID +:+ ": " +:+ err)
  | Response body =>
      fmt_Print ("Ответ от API для триггеров хоста " +:+ hostID +:+ ": " +:+ body);;
      match json_Unmarshal E body with
      | GoErr err =>
          log_Print ("Ошибка при разборе ответа триггеров для хоста "
                     +:+ hostID +:+ ": " +:+ err)
      | GoOk result =>
          if is_nil (Result result) then
            log_Print ("Нет триггеров для хоста " +:+ hostID +:+ ".")
          else
            items ← must (as_slice (Result result));
            triggers ← must (mapM projectTrigger items);
            saveToJSON (hostDir +:+ "/triggers.json") (OfTriggers triggers);;
            fmt_Print ("Триггеры успешно экспортированы для хоста " +:+ hostID
                       +:+ " в " +:+ hostDir +:+ "/triggers.json")
      end
  end.

(** Line 224. *)
Definition hostDirOf (exportDir hostName : string) : string :=
  exportDir +:+ "/hosts/" +:+ hostName.

(** Lines 183-232: the body of the loop over the host records. *)
Definition exportHost (token server exportDir : string) (item : json) : M unit :=
  host ← must (projectHost item);
  let hostDir := hostDirOf exportDir (HostName host) in
  os_MkdirAll hostDir;;
  saveToXML (hostDir +:+ "/host.xml") (OfHost host);;
  exportMetricsForHost token server hostDir (HostID host);;
  exportTriggersForHost token server hostDir (HostID host).

(** Lines 150-235. *)
Definition exportHostsWithDetails (token server exportDir : string) : M unit :=
  resp ← post (hostGetRequest server token);
  match resp with
  | TransportError err => log_Fatal ("Ошибка при запросе к Zabbix API: " +:+ err)
  | Response body =>
      match json_Unmarshal E body with
      | GoErr err => log_Fatal ("Ошибка при разборе ответа от Zabbix API: " +:+ err)
      | GoOk result =>
          none ← (if is_nil (Result result) then mret true
                  else hosts ← must (as_slice (Result result));
                       mret (Nat.eqb (length hosts) 0));
          if (none : bool) then log_Print "Нет доступных хостов для экспорта."
          else
            hosts ← must (as_slice (Result result));
            for_range (exportHost token server exportDir) hosts;;
            fmt_Print "Экспорт хостов завершен."
      end
  end.

(** Lines 99-148. *)
Definition main : M unit :=
  if negb (godotenv_Load E) then log_Fatal "Ошибка загрузки .env файла"
  else
    let zabbixUser := os_Getenv E "ZBX_USER" in
    let zabbixPassword := os_Getenv E "ZBX_PASSWD" in
    let zabbixServer := os_Getenv E "ZBX_URL" in
    let exportDir := os_Getenv E "EXPORT_DIRECTORY" in
    authResp ← post (loginRequest zabbixServer zabbixUser zabbixPassword);
    match authResp with
    | TransportError err => log_Fatal ("Ошибка при запросе к Zabbix API: " +:+ err)
    | Response body =>
        match json_Unmarshal E body with
        | GoErr err =>
            log_Fatal ("Ошибка при разборе ответа от Zabbix API: " +:+ err)
        | GoOk authResult =>
            if negb (Code (Error authResult) =? 0)%Z then
              log_Fatal ("Ошибка аутентификации: " +:+ Message (Error authResult))
            else
              match as_string (Result authResult) with
              | Some zabbixToken =>
                  if String.eqb zabbixToken "" then
                    log_Fatal "Ошибка: Токен аутентификации не получен"
                  else
                    exportHostsWithDetails zabbixToken zabbixServer exportDir;;
                    fmt_Print "Экспорт данных завершен."
              | None => log_Fatal "Ошибка: Токен аутентификации не получен"
              end
        end
    end.

End Program.

(** ** Vocabulary of the statements *)

(** The login call of [main], built from the process environment. *)
Definition loginOf (E : Environment) : Request :=
  loginRequest (os_Getenv E "ZBX_URL") (os_Getenv E "ZBX_USER")
               (os_Getenv E "ZBX_PASSWD").

(** The server and the export root of [main], read from the same place. *)
Definition serverOf (E : Environment) : string := os_Getenv E "ZBX_URL".
Definition exportDirOf (E : Environment) : string := os_Getenv E "EXPORT_DIRECTORY".

(** The directory of a projected host under the export root of [main]. *)
Definition dirOfHost (E : Environment) (h : Host) : string :=
  hostDirOf (exportDirOf E) (HostName h).

(** The two calls made for one host, in the order of lines 231-232. *)
Definition hostRequests (server token : string) (h : Host) : list Request :=
  [itemGetRequest server token (HostID h);
   triggerGetRequest server token (HostID h)].

(** A fetch that succeeds at transport and at decode: after the requests
    [history], the server answers [req] with a body that decodes to
    [result]. *)
Definition decoded (E : Environment) (history : list Request) (req : Request)
    (result : ZabbixResponse) : Prop :=
  ∃ body, client_Post E history req = Response body
          ∧ json_Unmarshal E body = GoOk result.

(** A fetch that fails at transport or at decode, with error text [err]. *)
Definition fetch_failed (E : Environment) (history : list Request) (req : Request)
    (err : string) : Prop :=
  client_Post E history req = TransportError err
  ∨ ∃ body, client_Post E history req = Response body
            ∧ json_Unmarshal E body = GoErr err.

Definition has_file (w : World) (path : string) : Prop :=
  is_Some (files w !! path).

(** Steps of a run: unfold the operations of the monad on a world. *)
Ltac run :=
  unfold mbind, M_bind, mret, M_ret, must, post, os_WriteFile, os_MkdirAll,
    log_Print, log_Fatal, fmt_Print; simpl.

(** ** Sample runs

    A small server and disk on which the program is run in the examples
    below.  Response bodies are written with apostrophes for the double
    quotes of JSON. *)

Module Scenario.

Fixpoint json_text (s : string) : string :=
  match s with
  | EmptyString => EmptyString
  | String c rest =>
      String (if Ascii.eqb c (Ascii.ascii_of_nat 39) then Ascii.ascii_of_nat 34 else c)
             (json_text rest)
  end.

Definition envelope (result : json) : ZabbixResponse :=
  {| Jsonrpc := "2.0"; Result := result;
     Error := {| Code := 0; Message := ""; Data := "" |}; Id := 1 |}.

Definition rejected : ZabbixResponse :=
  {| Jsonrpc := "2.0"; Result := JNull;
     Error := {| Code := 401; Message := "Not authorised.";
                 Data := "Login name or password is incorrect." |};
     Id := 1 |}.

Definition token : string := "0424bd59b807674191e7d77572075f33".

(** A host with two interfaces, and the same record without the
    [available] key (as servers from Zabbix 5.4 on send it). *)
Definition web01_core : gmap string json :=
  {[ "hostid" := JStr "10084";
     "name" := JStr "web01";
     "status" := JStr "0";
     "interfaces" :=
       JArr [JObj {[ "ip" := JStr "10.0.0.5" ]};
             JObj {[ "ip" := JStr "192.168.1.9" ]}] ]}.

Definition web01 : gmap string json := <["available" := JStr "1"]> web01_core.

Definition db01 : gmap string json :=
  {[ "hostid" := JStr "10085";
     "name" := JStr "db01";
     "status" := JStr "0";
     "available" := JStr "2";
     "description" := JStr "primary database";
     "groups" := JArr [JObj {[ "groupid" := JStr "4"; "name" := JStr "Databases" ]}];
     "interfaces" := JArr [JObj {[ "ip" := JStr "10.0.0.6" ]}] ]}.

Definition cpu_load : gmap string json :=
  {[ "itemid" := JStr "23296"; "name" := JStr "CPU load";
     "key_" := JStr "system.cpu.load"; "lastvalue" := JStr "0.25" ]}.

(** A trigger whose [priority] is a number and whose [status] is missing. *)
Definition high_load : gmap string json :=
  {[ "triggerid" := JStr "13491"; "description" := JStr "High CPU load";
     "priority" := JNum (S754_finite false 3 0) ]}.

Definition body_token : string :=
  json_text "{'jsonrpc':'2.0','result':'0424bd59b807674191e7d77572075f33','id':1}".
Definition body_rejected : string :=
  json_text "{'jsonrpc':'2.0','error':{'code':401,'message':'Not authorised.','data':'Login name or password is incorrect.'},'id':1}".
Definition body_null : string :=
  json_text "{'jsonrpc':'2.0','result':null,'id':1}".
Definition body_empty : string :=
  json_text "{'jsonrpc':'2.0','result':[],'id':1}".
Definition body_one_host : string :=
  json_text "{'jsonrpc':'2.0','result':[{'hostid':'10084','name':'web01','status':'0','available':'1','interfaces':[{'ip':'10.0.0.5'},{'ip':'192.168.1.9'}]}],'id':1}".
Definition body_host_without_flag : string :=
  json_text "{'jsonrpc':'2.0','result':[{'hostid':'10084','name':'web01','status':'0','interfaces':[{'ip':'10.0.0.5'},{'ip':'192.168.1.9'}]}],'id':1}".
Definition body_two_hosts : string :=
  json_text "{'jsonrpc':'2.0','result':[{'hostid':'10084','name':'web01','status':'0','available':'1','interfaces':[{'ip':'10.0.0.5'},{'ip':'192.168.1.9'}]},{'hostid':'10085','name':'db01','status':'0','available':'2','description':'primary database','groups':[{'groupid':'4','name':'Databases'}],'interfaces':[{'ip':'10.0.0.6'}]}],'id':1}".
Definition body_items : string :=
  json_text "{'jsonrpc':'2.0','result':[{'itemid':'23296','name':'CPU load','key_':'system.cpu.load','lastvalue':'0.25'}],'id':1}".
Definition body_triggers : string :=
  json_text "{'jsonrpc':'2.0','result':[{'triggerid':'13491','description':'High CPU load','priority':3}],'id':1}".

(** The decoder of the sample runs knows these bodies and rejects the rest. *)
Definition bodies : list (string * ZabbixResponse) :=
  [ (body_token, envelope (JStr token));
    (body_rejected, rejected);
    (body_null, envelope JNull);
    (body_empty, envelope (JArr []));
    (body_one_host, envelope (JArr [JObj web01]));
    (body_host_without_flag, envelope (JArr [JObj web01_core]));
    (body_two_hosts, envelope (JArr [JObj web01; JObj db01]));
    (body_items, envelope (JArr [JObj cpu_load]));
    (body_triggers, envelope (JArr [JObj high_load])) ].

Definition unmarshal (body : string) : goresult ZabbixResponse :=
  match List.find (λ p, String.eqb body (fst p)) bodies with
  | Some p => GoOk (snd p)
  | None => GoErr "invalid character 'o' in literal null (expecting 'u')"
  end.

(** Stand-ins for the Go encoders: they render the identifiers only. *)
Definition render_xml (data : payload) : goresult string :=
  match data with
  | OfHost h => GoOk ("<host><hostid>" +:+ HostID h +:+ "</hostid></host>")
  | _ => GoErr "xml: unsupported type"
  end.

Definition render_json (data : payload) : goresult string :=
  match data with
  | OfMetrics ms => GoOk ("[" +:+ String.concat "," (ItemID <$> ms) +:+ "]")
  | OfTriggers ts => GoOk ("[" +:+ String.concat "," (TriggerID <$> ts) +:+ "]")
  | OfHost _ => GoErr "json: unsupported type"
  end.

Definition getenv (name : string) : string :=
  if String.eqb name "ZBX_USER" then "Admin"
  else if String.eqb name "ZBX_PASSWD" then "zabbix"
  else if String.eqb name "ZBX_URL" then "http://zabbix.example/api_jsonrpc.php"
  else if String.eqb name "EXPORT_DIRECTORY" then "/srv/export"
  else "".

(** A server that answers by method, whatever was asked before. *)
Definition server (login hosts items triggers : Reply)
  : list Request → Request → Reply := λ _ req,
  if String.eqb (req_method req) "user.login" then login
  else if String.eqb (req_method req) "host.get" then hosts
  else if String.eqb (req_method req) "item.get" then items
  else triggers.

Definition env (login hosts items triggers : Reply) : Environment :=
  {| godotenv_Load := true;
     os_Getenv := getenv;
     client_Post := server login hosts items triggers;
     json_Unmarshal := unmarshal;
     xml_MarshalIndent := render_xml;
     json_MarshalIndent := render_json;
     os_WriteFile_err := λ _ _ _, None |}.

(** Six servers: one on which every call succeeds, one that lists no
    host, one whose item call times out, one whose trigger call times
    out, one that answers the item call with a null result, and one whose
    host record has no [available] key. *)
Definition healthy : Environment :=
  env (Response body_token) (Response body_two_hosts) (Response body_items)
      (Response body_triggers).

Definition no_hosts : Environment :=
  env (Response body_token) (Response body_null) (Response body_items)
      (Response body_triggers).

Definition items_down : Environment :=
  env (Response body_token) (Response body_one_host) (TransportError "timeout")
      (Response body_triggers).

Definition triggers_down : Environment :=
  env (Response body_token) (Response body_one_host) (Response body_items)
      (TransportError "timeout").

Definition null_items : Environment :=
  env (Response body_token) (Response body_one_host) (Response body_null)
      (Response body_triggers).

Definition no_flag : Environment :=
  env (Response body_token) (Response body_host_without_flag)
      (Response body_items) (Response body_triggers).

Definition fresh : World :=
  {| sent := []; dirs := []; files := ∅; logged := []; printed := [] |}.

Definition url : string := "http://zabbix.example/api_jsonrpc.php".
Definition root : string := "/srv/export".

End Scenario.

(** ** Growth of the world *)

(** [w'] keeps everything [w] has: the requests, directories, log lines
    and printed lines of [w] are a prefix of those of [w'], and every file
    of [w] is still a file of [w']. *)
Definition extends (w w' : World) : Prop :=
  sent w `prefix_of` sent w'
  ∧ dirs w `prefix_of` dirs w'
  ∧ logged w `prefix_of` logged w'
  ∧ printed w `prefix_of` printed w'
  ∧ dom (files w) ⊆ dom (files w').

(** A piece of the program that only adds to the world, however it ends. *)
Definition monotone {A} (m : M A) : Prop :=
  ∀ w, extends w (snd (m w)).

(** The three files of one host directory. *)
Definition hostFiles (hostDir : string) : list string :=
  [hostDir +:+ "/host.xml"; hostDir +:+ "/metrics.json";
   hostDir +:+ "/triggers.json"].

(** ** Further sample runs

    Replies that the program does not expect, and a disk that refuses
    every write. *)

Module Cases.

Definition body_empty_token : string :=
  Scenario.json_text "{'jsonrpc':'2.0','result':'','id':1}".
Definition body_true : string :=
  Scenario.json_text "{'jsonrpc':'2.0','result':true,'id':1}".
Definition body_expired : string :=
  Scenario.json_text "{'jsonrpc':'2.0','error':{'code':-32602,'message':'Invalid params.','data':'Session terminated, re-login, please.'},'id':1}".
Definition body_three_hosts : string :=
  Scenario.json_text "{'jsonrpc':'2.0','result':[{'hostid':'10085','name':'db01','status':'0','available':'2','description':'primary database','groups':[{'groupid':'4','name':'Databases'}],'interfaces':[{'ip':'10.0.0.6'}]},{'hostid':'10084','name':'web01','status':'0','interfaces':[{'ip':'10.0.0.5'},{'ip':'192.168.1.9'}]},{'hostid':'10084','name':'web01','status':'0','available':'1','interfaces':[{'ip':'10.0.0.5'},{'ip':'192.168.1.9'}]}],'id':1}".
Definition body_item_without_value : string :=
  Scenario.json_text "{'jsonrpc':'2.0','result':[{'itemid':'23296','name':'CPU load','key_':'system.cpu.load','lastvalue':'0.25'},{'itemid':'23297','name':'Free memory','key_':'vm.memory.size[free]'}],'id':1}".
Definition body_trigger_ids : string :=
  Scenario.json_text "{'jsonrpc':'2.0','result':['13491'],'id':1}".

(** An item record without [lastvalue]. *)
Definition free_memory : gmap string json :=
  {[ "itemid" := JStr "23297"; "name" := JStr "Free memory";
     "key_" := JStr "vm.memory.size[free]" ]}.

(** The Host that [db01] and [web01] are projected to. *)
Definition db01_host : Host :=
  {| XMLName := {| Space := ""; Local := "" |};
     HostID := "10085"; HostName := "db01"; IPAddress := "10.0.0.6";
     Status := "0"; Availability := "Unknown"; Notes := "primary database";
     Groups := [{| GroupID := "4"; Group_Name := "Databases" |}];
     Templates := []; Interfaces := [] |}.

Definition web01_host : Host :=
  {| XMLName := {| Space := ""; Local := "" |};
     HostID := "10084"; HostName := "web01"; IPAddress := "10.0.0.5";
     Status := "0"; Availability := "Available"; Notes := "";
     Groups := []; Templates := []; Interfaces := [] |}.

Definition expired : ZabbixResponse :=
  {| Jsonrpc := "2.0"; Result := JNull;
     Error := {| Code := -32602; Message := "Invalid params.";
                 Data := "Session terminated, re-login, please." |};
     Id := 1 |}.

Definition bodies : list (string * ZabbixResponse) :=
  [ (body_empty_token, Scenario.envelope (JStr ""));
    (body_true, Scenario.envelope (JBool true));
    (body_expired, expired);
    (body_three_hosts,
     Scenario.envelope
       (JArr [JObj Scenario.db01; JObj Scenario.web01_core; JObj Scenario.web01]));
    (body_item_without_value,
     Scenario.envelope (JArr [JObj Scenario.cpu_load; JObj free_memory]));
    (body_trigger_ids, Scenario.envelope (JArr [JStr "13491"])) ].

Definition unmarshal (body : string) : goresult ZabbixResponse :=
  match List.find (λ p, String.eqb body (fst p)) bodies with
  | Some p => GoOk (snd p)
  | None => Scenario.unmarshal body
  end.

(** The sample environment with the larger decoder and a chosen disk. *)
Definition env (login hosts items triggers : Reply)
    (disk : World → string → string → option string) : Environment :=
  {| godotenv_Load := true;
     os_Getenv := Scenario.getenv;
     client_Post := Scenario.server login hosts items triggers;
     json_Unmarshal := unmarshal;
     xml_MarshalIndent := Scenario.render_xml;
     json_MarshalIndent := Scenario.render_json;
     os_WriteFile_err := disk |}.

Definition writable : World → string → string → option string :=
  λ _ _ _, None.

Definition read_only : World → string → string → option string :=
  λ _ _ _, Some "permission denied".

(** The healthy sample server started without its [.env] file. *)
Definition without_dotenv : Environment :=
  {| godotenv_Load := false;
     os_Getenv := λ _, "";
     client_Post := client_Post Scenario.healthy;
     json_Unmarshal := unmarshal;
     xml_MarshalIndent := Scenario.render_xml;
     json_MarshalIndent := Scenario.render_json;
     os_WriteFile_err := writable |}.

Definition healthy : Environment :=
  env (Response Scenario.body_token) (Response Scenario.body_two_hosts)
      (Response Scenario.body_items) (Response Scenario.body_triggers) writable.

End Cases.

(** ** Vocabulary of the statements about one iteration *)

(** The world after lines 224-228 of an iteration for the Host [h]: the
    directory call, then [host.xml] with [xml.Header] in front of the
    encoding [xmlData]. *)
Definition hostXmlWritten (exportDir : string) (h : Host) (xmlData : string)
    (w : World) : World :=
  with_file (hostDirOf exportDir (HostName h) +:+ "/host.xml")
            (xml_Header +:+ xmlData)
            (with_dir (hostDirOf exportDir (HostName h)) w).

(** A Host with other notes, groups or templates. *)
Definition withNotes (notes : string) (h : Host) : Host :=
  {| XMLName := XMLName h; HostID := HostID h; HostName := HostName h;
     IPAddress := IPAddress h; Status := Status h;
     Availability := Availability h; Notes := notes; Groups := Groups h;
     Templates := Templates h; Interfaces := Interfaces h |}.

Definition withGroups (groups : list Group) (h : Host) : Host :=
  {| XMLName := XMLName h; HostID := HostID h; HostName := HostName h;
     IPAddress := IPAddress h; Status := Status h;
     Availability := Availability h; Notes := Notes h; Groups := groups;
     Templates := Templates h; Interfaces := Interfaces h |}.

Definition withTemplates (templates : list Template) (h : Host) : Host :=
  {| XMLName := XMLName h; HostID := HostID h; HostName := HostName h;
     IPAddress := IPAddress h; Status := Status h;
     Availability := Availability h; Notes := Notes h; Groups := Groups h;
     Templates := templates; Interfaces := Interfaces h |}.

(** ** Sample runs of the host loop *)

Module Loop.

(** A host reply that lists [web01] twice. *)
Definition body_twins : string :=
  Scenario.json_text "{'jsonrpc':'2.0','result':[{'hostid':'10084','name':'web01','status':'0','available':'1','interfaces':[{'ip':'10.0.0.5'},{'ip':'192.168.1.9'}]},{'hostid':'10084','name':'web01','status':'0','available':'1','interfaces':[{'ip':'10.0.0.5'},{'ip':'192.168.1.9'}]}],'id':1}".

Definition unmarshal (body : string) : goresult ZabbixResponse :=
  if String.eqb body body_twins
  then GoOk (Scenario.envelope (JArr [JObj Scenario.web01; JObj Scenario.web01]))
  else Scenario.unmarshal body.

(** The server on which every call succeeds, listing [web01] twice. *)
Definition twins : Environment :=
  {| godotenv_Load := true;
     os_Getenv := Scenario.getenv;
     client_Post :=
       Scenario.server (Response Scenario.body_token) (Response body_twins)
         (Response Scenario.body_items) (Response Scenario.body_triggers);
     json_Unmarshal := unmarshal;
     xml_MarshalIndent := Scenario.render_xml;
     json_MarshalIndent := Scenario.render_json;
     os_WriteFile_err := λ _ _ _, None |}.

(** The server with the two hosts [web01] and [db01] whose item call
    times out, and the one whose trigger result is null. *)
Definition items_down : Environment :=
  Scenario.env (Response Scenario.body_token) (Response Scenario.body_two_hosts)
    (TransportError "timeout") (Response Scenario.body_triggers).

Definition no_triggers : Environment :=
  Scenario.env (Response Scenario.body_token) (Response Scenario.body_two_hosts)
    (Response Scenario.body_items) (Response Scenario.body_null).

Definition web01_xml : string := "<host><hostid>10084</hostid></host>".

End Loop.

(** ** Projection of host records *)

Lemma index_lookup (data : gmap string json) (key : string) (v : json) :
  data !! key = Some v → index data key = v.
Proof. intros H. unfold index. by rewrite H. Qed.

Lemma index_absent (data : gmap string json) (key : string) :
  data !! key = None → index data key = JNull.
Proof. intros H. unfold index. by rewrite H. Qed.

Lemma availabilityOf_string (data : gmap string json) (flag : string) :
  data !! "available" = Some (JStr flag) →
  availabilityOf data =
    Some (if String.eqb flag "1" then "Available"
          else if String.eqb flag "0" then "Unavailable" else "Unknown").
Proof.
  intros H. unfold availabilityOf. rewrite (index_lookup _ _ _ H). simpl.
  by destruct (String.eqb flag "1"), (String.eqb flag "0").
Qed.

Lemma hostLiteral_fields (data : gmap string json) (availability : string) (h : Host) :
  hostLiteral data availability = Some h →
  Availability h = availability ∧ firstInterfaceIP data = Some (IPAddress h).
Proof.
  unfold hostLiteral. intros H.
  destruct (as_string (index data "hostid")); [simpl in H | done].
  destruct (as_string (index data "name")); [simpl in H | done].
  destruct (firstInterfaceIP data); [simpl in H | done].
  destruct (as_string (index data "status")); [simpl in H | done].
  by simplify_eq.
Qed.

Lemma projectHost_stages (data : gmap string json) (h : Host) :
  projectHost (JObj data) = Some h →
  ∃ availability lit,
    availabilityOf data = Some availability
    ∧ hostLiteral data availability = Some lit
    ∧ Availability h = Availability lit
    ∧ IPAddress h = IPAddress lit
    ∧ HostName h = HostName lit
    ∧ HostID h = HostID lit.
Proof.
  unfold projectHost. simpl. intros H.
  destruct (availabilityOf data) as [a|]; [simpl in H | done].
  destruct (hostLiteral data a) as [lit|] eqn:Hlit; [simpl in H | done].
  destruct (groupsOf data); [simpl in H | done].
  destruct (templatesOf data); [simpl in H | done].
  exists a, lit. by simplify_eq.
Qed.

(** The record of a host that lacks the [available] key is not projected:
    the assertion of line 185 panics. *)
Lemma availabilityOf_absent (data : gmap string json) :
  data !! "available" = None →
  availabilityOf data = None ∧ projectHost (JObj data) = None.
Proof.
  intros H.
  assert (availabilityOf data = None) as Ha.
  { unfold availabilityOf. by rewrite (index_absent _ _ H). }
  split; [done |]. unfold projectHost. simpl. by rewrite Ha.
Qed.

(** C1, as amended: when the raw availability flag of a host record is a
    string, the derived label is "Available" for "1", "Unavailable" for
    "0" and "Unknown" for every other string, and every Host projected
    from the record carries that label. *)
Theorem availability_label_of_string_flag (data : gmap string json) (flag : string) :
  data !! "available" = Some (JStr flag) →
  ∃ label,
    availabilityOf data = Some label
    ∧ (∀ h, projectHost (JObj data) = Some h → Availability h = label)
    ∧ (flag = "1" → label = "Available")
    ∧ (flag = "0" → label = "Unavailable")
    ∧ (flag ≠ "1" → flag ≠ "0" → label = "Unknown").
Proof.
  intros Hflag. pose proof (availabilityOf_string _ _ Hflag) as Hlabel.
  eexists. split; [exact Hlabel |]. split.
  - intros h Hh. destruct (projectHost_stages _ _ Hh) as (a & lit & Ha & Hlit & -> & _).
    rewrite Hlabel in Ha. injection Ha as <-.
    by destruct (hostLiteral_fields _ _ _ Hlit) as [-> _].
  - repeat split.
    + by intros ->.
    + by intros ->.
    + intros H1 H0.
      destruct (String.eqb_spec flag "1"); [done |].
      by destruct (String.eqb_spec flag "0").
Qed.

(** The amended C1 on the host [web01], whose flag is "1". *)
Lemma availability_label_of_string_flag_witness :
  ∃ label,
    availabilityOf Scenario.web01 = Some label
    ∧ (∀ h, projectHost (JObj Scenario.web01) = Some h → Availability h = label)
    ∧ ("1" = "1" → label = "Available")
    ∧ ("1" = "0" → label = "Unavailable")
    ∧ ("1" ≠ "1" → "1" ≠ "0" → label = "Unknown").
Proof.
  apply (availability_label_of_string_flag Scenario.web01 "1").
  vm_compute. reflexivity.
Defined.

(** C1 as stated fails when the flag is absent: the record [web01_core]
    has every other field, yet no label is derived and no Host is
    projected from it. *)
Lemma availability_absent_flag_counterexample :
  Scenario.web01_core !! "available" = None
  ∧ availabilityOf Scenario.web01_core ≠ Some "Unknown"
  ∧ projectHost (JObj Scenario.web01_core) = None.
Proof.
  assert (Scenario.web01_core !! "available" = None) as H
    by (vm_compute; reflexivity).
  destruct (availabilityOf_absent _ H) as [Ha Hp].
  split; [exact H |]. split; [by rewrite Ha | exact Hp].
Qed.

(** A whole run on the sample server whose host record has no
    [available] key: the process panics in the first iteration, before
    any directory is made. *)
Example absent_flag_run_panics :
  fst (main Scenario.no_flag Scenario.fresh) = Panicked
  ∧ dirs (snd (main Scenario.no_flag Scenario.fresh)) = []
  ∧ files (snd (main Scenario.no_flag Scenario.fresh)) = ∅.
Proof. repeat split; vm_compute; reflexivity. Qed.

(** C7: when the interface list of a host record starts with [first], a
    map whose [ip] is a string, and the rest of the record is well formed
    (string [hostid], [name], [status] and [available]; groups and
    templates that are projected), the record is projected to a Host
    whose address is the [ip] of [first], whatever the interfaces after
    it are; and no Host projected from a record has another address than
    the [ip] of its first interface. *)
Theorem primary_ip_is_first_interface
    (data : gmap string json) (first : json) (others : list json) :
  data !! "interfaces" = Some (JArr (first :: others)) →
  (∀ (m : gmap string json) (ip hostid name status flag : string)
     (groups : list Group) (templates : list Template),
     first = JObj m →
     m !! "ip" = Some (JStr ip) →
     data !! "hostid" = Some (JStr hostid) →
     data !! "name" = Some (JStr name) →
     data !! "status" = Some (JStr status) →
     data !! "available" = Some (JStr flag) →
     groupsOf data = Some groups →
     templatesOf data = Some templates →
     projectHost (JObj data)
     = Some {| XMLName := {| Space := ""; Local := "" |};
               HostID := hostid; HostName := name; IPAddress := ip;
               Status := status;
               Availability :=
                 if String.eqb flag "1" then "Available"
                 else if String.eqb flag "0" then "Unavailable" else "Unknown";
               Notes := notesOf data; Groups := groups;
               Templates := templates; Interfaces := [] |})
  ∧ (∀ h, projectHost (JObj data) = Some h →
          ∃ m, first = JObj m ∧ m !! "ip" = Some (JStr (IPAddress h))).
Proof.
  intros Hifs.
  assert (firstInterfaceIP data = (m ← as_map first; as_string (index m "ip"))) as Hip.
  { unfold firstInterfaceIP. by rewrite (index_lookup _ _ _ Hifs). }
  split.
  - intros m ip hostid name status flag groups templates -> Hm Hid Hname Hstatus
      Hflag Hgroups Htemplates.
    unfold projectHost. simpl. rewrite (availabilityOf_string _ _ Hflag). simpl.
    unfold hostLiteral. rewrite Hip. simpl.
    rewrite (index_lookup _ _ _ Hid), (index_lookup _ _ _ Hname),
      (index_lookup _ _ _ Hm), (index_lookup _ _ _ Hstatus). simpl.
    by rewrite Hgroups, Htemplates.
  - intros h Hh. destruct (projectHost_stages _ _ Hh) as (a & lit & _ & Hlit & _ & -> & _).
    destruct (hostLiteral_fields _ _ _ Hlit) as [_ Hfirst].
    rewrite Hip in Hfirst. destruct first as [| | | | |m]; try done.
    exists m. split; [done |]. simpl in Hfirst. unfold index in Hfirst.
    destruct (m !! "ip") as [[| | |s| |]|]; try done.
    simpl in Hfirst. by simplify_eq.
Qed.

(** C7 on [web01]: two interfaces, and the Host has the address of the
    first one. *)
Lemma primary_ip_is_first_interface_witness :
  projectHost (JObj Scenario.web01)
  = Some {| XMLName := {| Space := ""; Local := "" |};
            HostID := "10084"; HostName := "web01"; IPAddress := "10.0.0.5";
            Status := "0";
            Availability :=
              if String.eqb "1" "1" then "Available"
              else if String.eqb "1" "0" then "Unavailable" else "Unknown";
            Notes := notesOf Scenario.web01; Groups := [];
            Templates := []; Interfaces := [] |}.
Proof.
  assert (Scenario.web01 !! "interfaces"
          = Some (JArr (JObj {[ "ip" := JStr "10.0.0.5" ]}
                        :: [JObj {[ "ip" := JStr "192.168.1.9" ]}]))) as Hifs
    by (vm_compute; reflexivity).
  apply (proj1 (primary_ip_is_first_interface Scenario.web01 _ _ Hifs)
           {[ "ip" := JStr "10.0.0.5" ]} "10.0.0.5" "10084" "web01" "0" "1" [] []).
  - reflexivity.
  - vm_compute. reflexivity.
  - vm_compute. reflexivity.
  - vm_compute. reflexivity.
  - vm_compute. reflexivity.
  - vm_compute. reflexivity.
  - vm_compute. reflexivity.
  - vm_compute. reflexivity.
Defined.

(** ** Defensive extraction of trigger fields *)

Lemma getStringFromMap_string (data : gmap string json) (key s : string) :
  data !! key = Some (JStr s) → getStringFromMap data key = s.
Proof. intros H. unfold getStringFromMap. by rewrite H. Qed.

Lemma getStringFromMap_other (data : gmap string json) (key : string) :
  (∀ s, data !! key ≠ Some (JStr s)) → getStringFromMap data key = "".
Proof.
  intros H. unfold getStringFromMap.
  destruct (data !! key) as [v|] eqn:Hv; [| done].
  destruct v; try done. by destruct (H s).
Qed.

Lemma projectTrigger_all (records : list (gmap string json)) :
  mapM projectTrigger (JObj <$> records) = Some (triggerOfMap <$> records).
Proof.
  induction records as [|data records IH]; [done |].
  rewrite !fmap_cons. cbn [mapM]. rewrite IH. done.
Qed.

(** C8: [getStringFromMap] returns the string stored under the key, and
    the empty string when the key is missing or holds anything but a
    string; the four trigger fields are read through it, so every list of
    trigger record maps is projected without a panic. *)
Theorem trigger_fields_read_defensively (data : gmap string json) (key : string) :
  (∀ s, data !! key = Some (JStr s) → getStringFromMap data key = s)
  ∧ ((∀ s, data !! key ≠ Some (JStr s)) → getStringFromMap data key = "")
  ∧ projectTrigger (JObj data) =
      Some {| TriggerID := getStringFromMap data "triggerid";
              Description := getStringFromMap data "description";
              Priority := getStringFromMap data "priority";
              Trigger_Status := getStringFromMap data "status" |}
  ∧ (∀ records : list (gmap string json),
       mapM projectTrigger (JObj <$> records) = Some (triggerOfMap <$> records)).
Proof.
  split; [apply getStringFromMap_string |].
  split; [apply getStringFromMap_other |].
  split; [done | apply projectTrigger_all].
Qed.

(** C8 on the trigger [high_load]: a string field, then a missing one. *)
Lemma trigger_fields_read_defensively_witness :
  getStringFromMap Scenario.high_load "description" = "High CPU load"
  ∧ getStringFromMap Scenario.high_load "status" = "".
Proof.
  split.
  - apply (proj1 (trigger_fields_read_defensively Scenario.high_load "description")).
    vm_compute. reflexivity.
  - apply (proj1 (proj2 (trigger_fields_read_defensively Scenario.high_load "status"))).
    intros s. vm_compute. discriminate.
Defined.

(** ** Sequencing *)

Lemma bind_done {A B} (m : M A) (k : A → M B) (w w' : World) (a : A) :
  m w = (Done a, w') → (m ≫= k) w = k a w'.
Proof. intros H. unfold mbind, M_bind. by rewrite H. Qed.

Lemma bind_panicked {A B} (m : M A) (k : A → M B) (w w' : World) :
  m w = (Panicked, w') → (m ≫= k) w = (Panicked, w').
Proof. intros H. unfold mbind, M_bind. by rewrite H. Qed.

Lemma bind_exited {A B} (m : M A) (k : A → M B) (w w' : World) :
  m w = (Exited, w') → (m ≫= k) w = (Exited, w').
Proof. intros H. unfold mbind, M_bind. by rewrite H. Qed.

Lemma bind_done_inv {A B} (m : M A) (k : A → M B) (w w' : World) (b : B) :
  (m ≫= k) w = (Done b, w') →
  ∃ a w1, m w = (Done a, w1) ∧ k a w1 = (Done b, w').
Proof.
  unfold mbind, M_bind. destruct (m w) as [[a| |] w1]; [eauto | done | done].
Qed.

(** ** The session establisher *)

(** C3: when the envelope of the login reply has a non-zero error code,
    [main] exits through [log.Fatalf] with the message of the envelope;
    the login call is the only request made, and no directory is made and
    no file written. *)
Theorem login_rejected_is_fatal
    (E : Environment) (w : World) (body : string) (authResult : ZabbixResponse) :
  godotenv_Load E = true →
  client_Post E (sent w) (loginOf E) = Response body →
  json_Unmarshal E body = GoOk authResult →
  Code (Error authResult) ≠ 0%Z →
  ∃ w', main E w = (Exited, w')
    ∧ sent w' = sent w ++ [loginOf E]
    ∧ dirs w' = dirs w
    ∧ files w' = files w
    ∧ logged w' = logged w ++ ["Ошибка аутентификации: " +:+ Message (Error authResult)]
    ∧ printed w' = printed w.
Proof.
  intros Henv Hpost Hdec Hcode. unfold loginOf in *.
  exists (with_logged ("Ошибка аутентификации: " +:+ Message (Error authResult))
            (with_sent (loginRequest (os_Getenv E "ZBX_URL")
                          (os_Getenv E "ZBX_USER") (os_Getenv E "ZBX_PASSWD")) w)).
  split; [| done].
  unfold main. rewrite Henv. simpl. run. rewrite Hpost, Hdec.
  by destruct (Z.eqb_spec (Code (Error authResult)) 0).
Qed.

(** C3 on the sample server, which answers the login with error 401. *)
Lemma login_rejected_is_fatal_witness :
  ∃ w', main (Scenario.env (Response Scenario.body_rejected)
                (Response Scenario.body_two_hosts)
                (Response Scenario.body_items)
                (Response Scenario.body_triggers)) Scenario.fresh = (Exited, w')
    ∧ sent w' = [loginRequest Scenario.url "Admin" "zabbix"]
    ∧ dirs w' = []
    ∧ files w' = ∅
    ∧ logged w' = ["Ошибка аутентификации: Not authorised."]
    ∧ printed w' = [].
Proof.
  apply (login_rejected_is_fatal
           (Scenario.env (Response Scenario.body_rejected)
              (Response Scenario.body_two_hosts)
              (Response Scenario.body_items)
              (Response Scenario.body_triggers))
           Scenario.fresh Scenario.body_rejected Scenario.rejected).
  - reflexivity.
  - reflexivity.
  - vm_compute. reflexivity.
  - vm_compute. discriminate.
Defined.

(** ** The persistence writer *)

Lemma saveToXML_done (E : Environment) (filename : string) (data : payload)
    (w w' : World) :
  saveToXML E filename data w = (Done (), w') →
  ∃ content, w' = with_file filename content w.
Proof.
  unfold saveToXML. destruct (xml_MarshalIndent E data) as [xmlData|err]; run.
  - destruct (os_WriteFile_err E w filename (xml_Header +:+ xmlData)); [done |].
    intros [= <-]. eauto.
  - done.
Qed.

Lemma saveToJSON_done (E : Environment) (filename : string) (data : payload)
    (w w' : World) :
  saveToJSON E filename data w = (Done (), w') →
  ∃ content, w' = with_file filename content w.
Proof.
  unfold saveToJSON. destruct (json_MarshalIndent E data) as [jsonData|err]; run.
  - destruct (os_WriteFile_err E w filename jsonData); [done |].
    intros [= <-]. eauto.
  - done.
Qed.

(** What the two writers put on disk: the bytes of the encoder, behind
    [xml.Header] for the XML file, and nothing of their own. *)
Lemma saveToXML_content (E : Environment) (filename : string) (data : payload)
    (w w' : World) :
  saveToXML E filename data w = (Done (), w') →
  ∃ xmlData, xml_MarshalIndent E data = GoOk xmlData
             ∧ files w' !! filename = Some (xml_Header +:+ xmlData).
Proof.
  unfold saveToXML. destruct (xml_MarshalIndent E data) as [xmlData|err]; run.
  - destruct (os_WriteFile_err E w filename (xml_Header +:+ xmlData)); [done |].
    intros [= <-]. exists xmlData. split; [done |]. simpl. apply lookup_insert_eq.
  - done.
Qed.

Lemma saveToJSON_content (E : Environment) (filename : string) (data : payload)
    (w w' : World) :
  saveToJSON E filename data w = (Done (), w') →
  ∃ jsonData, json_MarshalIndent E data = GoOk jsonData
              ∧ files w' !! filename = Some jsonData.
Proof.
  unfold saveToJSON. destruct (json_MarshalIndent E data) as [jsonData|err]; run.
  - destruct (os_WriteFile_err E w filename jsonData); [done |].
    intros [= <-]. exists jsonData. split; [done |]. simpl. apply lookup_insert_eq.
  - done.
Qed.

Lemma saveToJSON_sent (E : Environment) (filename : string) (data : payload)
    (w : World) :
  sent (snd (saveToJSON E filename data w)) = sent w.
Proof.
  unfold saveToJSON. destruct (json_MarshalIndent E data) as [jsonData|err]; run.
  - by destruct (os_WriteFile_err E w filename jsonData).
  - done.
Qed.

Lemma has_file_with_file (w : World) (path content other : string) :
  has_file w other → has_file (with_file path content w) other.
Proof.
  unfold has_file. simpl. intros H.
  destruct (decide (path = other)) as [->|Hne].
  - rewrite lookup_insert_eq. eauto.
  - by rewrite lookup_insert_ne.
Qed.

Lemma has_file_written (w : World) (path content : string) :
  has_file (with_file path content w) path.
Proof. unfold has_file. simpl. rewrite lookup_insert_eq. eauto. Qed.

(** ** The trigger fetcher *)

Lemma exportTriggersForHost_sent (E : Environment)
    (token server hostDir hostID : string) (w : World) :
  sent (snd (exportTriggersForHost E token server hostDir hostID w))
  = sent w ++ [triggerGetRequest server token hostID].
Proof.
  unfold exportTriggersForHost. run.
  destruct (client_Post E (sent w) (triggerGetRequest server token hostID))
    as [err|body]; [done |].
  simpl. destruct (json_Unmarshal E body) as [result|err]; [| done].
  destruct (is_nil (Result result)); [done |].
  destruct (as_slice (Result result)) as [items|]; [| done].
  destruct (mapM projectTrigger items) as [triggers|]; [| done].
  match goal with
  | |- context [saveToJSON E ?f ?d ?w0] =>
      pose proof (saveToJSON_sent E f d w0) as Hs;
      destruct (saveToJSON E f d w0) as [[[]| |] w1]; simpl in *; by rewrite Hs
  end.
Qed.

(** The trigger fetcher on a decoded null result (lines 310-314). *)
Lemma exportTriggersForHost_null
    (E : Environment) (token server hostDir hostID : string) (w : World)
    (body : string) (result : ZabbixResponse) :
  client_Post E (sent w) (triggerGetRequest server token hostID) = Response body →
  json_Unmarshal E body = GoOk result →
  Result result = JNull →
  exportTriggersForHost E token server hostDir hostID w
  = (Done (),
     with_logged ("Нет триггеров для хоста " +:+ hostID +:+ ".")
       (with_printed ("Ответ от API для триггеров хоста " +:+ hostID
                      +:+ ": " +:+ body)
          (with_sent (triggerGetRequest server token hostID) w))).
Proof.
  intros Hpost Hdec Hnull.
  unfold exportTriggersForHost. run. rewrite Hpost. simpl.
  by rewrite Hdec, Hnull.
Qed.

Lemma saveToJSON_frame (E : Environment) (filename : string) (data : payload)
    (w : World) (path : string) :
  path ≠ filename →
  files (snd (saveToJSON E filename data w)) !! path = files w !! path.
Proof.
  intros Hne. unfold saveToJSON.
  destruct (json_MarshalIndent E data) as [jsonData|err]; run; [| done].
  destruct (os_WriteFile_err E w filename jsonData); [done |].
  simpl. by apply lookup_insert_ne.
Qed.

(** However the trigger fetcher ends, it changes no file but
    [triggers.json] of its directory. *)
Lemma exportTriggersForHost_frame (E : Environment)
    (token server hostDir hostID : string) (w : World) (path : string) :
  path ≠ hostDir +:+ "/triggers.json" →
  files (snd (exportTriggersForHost E token server hostDir hostID w)) !! path
  = files w !! path.
Proof.
  intros Hne. unfold exportTriggersForHost. run.
  destruct (client_Post E (sent w) (triggerGetRequest server token hostID))
    as [err|body]; [done |].
  simpl. destruct (json_Unmarshal E body) as [result|err]; [| done].
  destruct (is_nil (Result result)); [done |].
  destruct (as_slice (Result result)) as [items|]; [| done].
  destruct (mapM projectTrigger items) as [triggers|]; [| done].
  match goal with
  | |- context [saveToJSON E ?f ?d ?w0] =>
      pose proof (saveToJSON_frame E f d w0 path Hne) as Hf;
      destruct (saveToJSON E f d w0) as [[[]| |] w1]; simpl in *; by rewrite Hf
  end.
Qed.

(** ** One iteration of the host loop *)

(** An iteration whose record is projected and whose [host.xml] is
    written goes on with the two fetchers (lines 223-232). *)
Lemma exportHost_after_xml
    (E : Environment) (token server exportDir : string) (item : json) (w : World)
    (h : Host) (xmlData : string) :
  projectHost item = Some h →
  xml_MarshalIndent E (OfHost h) = GoOk xmlData →
  os_WriteFile_err E (with_dir (hostDirOf exportDir (HostName h)) w)
    (hostDirOf exportDir (HostName h) +:+ "/host.xml") (xml_Header +:+ xmlData)
  = None →
  exportHost E token server exportDir item w
  = (exportMetricsForHost E token server (hostDirOf exportDir (HostName h)) (HostID h);;
     exportTriggersForHost E token server (hostDirOf exportDir (HostName h)) (HostID h))
      (hostXmlWritten exportDir h xmlData w).
Proof.
  intros Hproj Hxml Hwrite.
  unfold exportHost at 1. rewrite Hproj.
  unfold must. unfold mbind at 1. unfold M_bind at 1.
  unfold mbind at 1. unfold M_bind at 1. unfold os_MkdirAll at 1.
  unfold mbind at 1. unfold M_bind at 1.
  unfold saveToXML. rewrite Hxml.
  unfold mbind at 1. unfold M_bind at 1. unfold os_WriteFile.
  by rewrite Hwrite.
Qed.

Lemma for_range_cons_done {A} (body : A → M unit) (x : A) (rest : list A)
    (w w' : World) :
  body x w = (Done (), w') →
  for_range body (x :: rest) w = for_range body rest w'.
Proof. intros H. cbn [for_range]. exact (bind_done _ _ _ _ _ H). Qed.

(** C5: in an iteration of the host loop whose record is projected,
    whose [host.xml] is written and whose metric fetch has returned, a
    trigger reply that decodes to a null result ends the iteration
    normally: the trigger fetcher logs that the host has no triggers and
    writes no file, [exportHost] returns, and the loop goes on with the
    next host from the world so left. *)
Theorem null_trigger_result_is_skipped
    (E : Environment) (token server exportDir : string) (item : json)
    (w w2 : World) (h : Host) (xmlData : string) (result : ZabbixResponse) :
  projectHost item = Some h →
  xml_MarshalIndent E (OfHost h) = GoOk xmlData →
  os_WriteFile_err E (with_dir (hostDirOf exportDir (HostName h)) w)
    (hostDirOf exportDir (HostName h) +:+ "/host.xml") (xml_Header +:+ xmlData)
  = None →
  exportMetricsForHost E token server (hostDirOf exportDir (HostName h)) (HostID h)
    (hostXmlWritten exportDir h xmlData w) = (Done (), w2) →
  decoded E (sent w2) (triggerGetRequest server token (HostID h)) result →
  Result result = JNull →
  ∃ w3,
    exportTriggersForHost E token server (hostDirOf exportDir (HostName h))
      (HostID h) w2 = (Done (), w3)
    ∧ exportHost E token server exportDir item w = (Done (), w3)
    ∧ files w3 = files w2
    ∧ dirs w3 = dirs w2
    ∧ logged w3 = logged w2 ++ ["Нет триггеров для хоста " +:+ HostID h +:+ "."]
    ∧ (∀ rest,
         for_range (exportHost E token server exportDir) (item :: rest) w
         = for_range (exportHost E token server exportDir) rest w3).
Proof.
  intros Hproj Hxml Hwrite Hmetrics (body & Hpost & Hdec) Hnull.
  pose proof (exportTriggersForHost_null E token server
                (hostDirOf exportDir (HostName h)) (HostID h) w2 body result
                Hpost Hdec Hnull) as Htriggers.
  assert (exportHost E token server exportDir item w
          = exportTriggersForHost E token server
              (hostDirOf exportDir (HostName h)) (HostID h) w2) as Hiter.
  { rewrite (exportHost_after_xml E token server exportDir item w h xmlData
               Hproj Hxml Hwrite).
    exact (bind_done _ _ _ _ _ Hmetrics). }
  eexists. split; [exact Htriggers |].
  split; [by rewrite Hiter |]. repeat split.
  intros rest. apply for_range_cons_done. by rewrite Hiter.
Qed.

(** C5 on the sample server with two hosts whose trigger result is null:
    the iteration of [web01] returns and the loop goes on with [db01]. *)
Lemma null_trigger_result_is_skipped_witness :
  ∃ w3,
    exportTriggersForHost Loop.no_triggers Scenario.token Scenario.url
      (hostDirOf Scenario.root (HostName Cases.web01_host))
      (HostID Cases.web01_host)
      (snd (exportMetricsForHost Loop.no_triggers Scenario.token Scenario.url
              (hostDirOf Scenario.root (HostName Cases.web01_host))
              (HostID Cases.web01_host)
              (hostXmlWritten Scenario.root Cases.web01_host Loop.web01_xml
                 Scenario.fresh)))
    = (Done (), w3)
    ∧ exportHost Loop.no_triggers Scenario.token Scenario.url Scenario.root
        (JObj Scenario.web01) Scenario.fresh = (Done (), w3)
    ∧ files w3
      = files (snd (exportMetricsForHost Loop.no_triggers Scenario.token Scenario.url
                      (hostDirOf Scenario.root (HostName Cases.web01_host))
                      (HostID Cases.web01_host)
                      (hostXmlWritten Scenario.root Cases.web01_host Loop.web01_xml
                         Scenario.fresh)))
    ∧ dirs w3
      = dirs (snd (exportMetricsForHost Loop.no_triggers Scenario.token Scenario.url
                     (hostDirOf Scenario.root (HostName Cases.web01_host))
                     (HostID Cases.web01_host)
                     (hostXmlWritten Scenario.root Cases.web01_host Loop.web01_xml
                        Scenario.fresh)))
    ∧ logged w3
      = logged (snd (exportMetricsForHost Loop.no_triggers Scenario.token
                       Scenario.url
                       (hostDirOf Scenario.root (HostName Cases.web01_host))
                       (HostID Cases.web01_host)
                       (hostXmlWritten Scenario.root Cases.web01_host Loop.web01_xml
                          Scenario.fresh)))
        ++ ["Нет триггеров для хоста " +:+ HostID Cases.web01_host +:+ "."]
    ∧ (∀ rest,
         for_range (exportHost Loop.no_triggers Scenario.token Scenario.url
                      Scenario.root) (JObj Scenario.web01 :: rest) Scenario.fresh
         = for_range (exportHost Loop.no_triggers Scenario.token Scenario.url
                        Scenario.root) rest w3).
Proof.
  apply (null_trigger_result_is_skipped Loop.no_triggers Scenario.token Scenario.url
           Scenario.root (JObj Scenario.web01) Scenario.fresh _ Cases.web01_host
           Loop.web01_xml (Scenario.envelope JNull)).
  - vm_compute. reflexivity.
  - reflexivity.
  - reflexivity.
  - vm_compute. reflexivity.
  - exists Scenario.body_null. split; vm_compute; reflexivity.
  - reflexivity.
Defined.

(** ** The metric fetcher *)

Lemma host_paths_differ (hostDir a b : string) :
  a ≠ b → hostDir +:+ a ≠ hostDir +:+ b.
Proof. intros Hne Heq. by apply (String.app_inj hostDir) in Heq. Qed.

(** The metric fetcher on a fetch that fails (lines 252-262). *)
Lemma exportMetricsForHost_failed
    (E : Environment) (token server hostDir hostID : string) (w : World)
    (err : string) :
  fetch_failed E (sent w) (itemGetRequest server token hostID) err →
  ∃ line,
    (line = "Ошибка при получении метрик для хоста " +:+ hostID +:+ ": " +:+ err
     ∨ line = "Ошибка при разборе метрик хоста " +:+ hostID +:+ ": " +:+ err)
    ∧ exportMetricsForHost E token server hostDir hostID w
      = (Done (), with_logged line
                    (with_sent (itemGetRequest server token hostID) w)).
Proof.
  intros [Hpost | (body & Hpost & Hdec)].
  - eexists. split; [by left |].
    unfold exportMetricsForHost. run. by rewrite Hpost.
  - eexists. split; [by right |].
    unfold exportMetricsForHost. run. by rewrite Hpost, Hdec.
Qed.

(** C4: in an iteration of the host loop whose record is projected and
    whose [host.xml] is written, a metric fetch that fails at transport
    or at decode is logged and skipped.  The metric fetcher returns
    without writing a file, the iteration goes on with the trigger fetch
    of the same host (its request is the next one sent), [metrics.json]
    of the host is left as it was whatever the trigger fetch does, and
    the loop goes on with the hosts after it. *)
Theorem metric_fetch_failure_is_skipped
    (E : Environment) (token server exportDir : string) (item : json) (w : World)
    (h : Host) (xmlData err : string) :
  projectHost item = Some h →
  xml_MarshalIndent E (OfHost h) = GoOk xmlData →
  os_WriteFile_err E (with_dir (hostDirOf exportDir (HostName h)) w)
    (hostDirOf exportDir (HostName h) +:+ "/host.xml") (xml_Header +:+ xmlData)
  = None →
  fetch_failed E (sent w) (itemGetRequest server token (HostID h)) err →
  ∃ line w2,
    (line = "Ошибка при получении метрик для хоста " +:+ HostID h +:+ ": " +:+ err
     ∨ line = "Ошибка при разборе метрик хоста " +:+ HostID h +:+ ": " +:+ err)
    ∧ w2 = with_logged line
             (with_sent (itemGetRequest server token (HostID h))
                (hostXmlWritten exportDir h xmlData w))
    ∧ exportMetricsForHost E token server (hostDirOf exportDir (HostName h))
        (HostID h) (hostXmlWritten exportDir h xmlData w) = (Done (), w2)
    ∧ exportHost E token server exportDir item w
      = exportTriggersForHost E token server (hostDirOf exportDir (HostName h))
          (HostID h) w2
    ∧ sent (snd (exportHost E token server exportDir item w))
      = sent w ++ [itemGetRequest server token (HostID h);
                   triggerGetRequest server token (HostID h)]
    ∧ files (snd (exportHost E token server exportDir item w))
        !! (hostDirOf exportDir (HostName h) +:+ "/metrics.json")
      = files w !! (hostDirOf exportDir (HostName h) +:+ "/metrics.json")
    ∧ (∀ rest,
         for_range (exportHost E token server exportDir) (item :: rest) w
         = (exportTriggersForHost E token server (hostDirOf exportDir (HostName h))
              (HostID h);;
            for_range (exportHost E token server exportDir) rest) w2).
Proof.
  intros Hproj Hxml Hwrite Hfail.
  destruct (exportMetricsForHost_failed E token server
              (hostDirOf exportDir (HostName h)) (HostID h)
              (hostXmlWritten exportDir h xmlData w) err Hfail)
    as (line & Hline & Hmetrics).
  set (w2 := with_logged line
               (with_sent (itemGetRequest server token (HostID h))
                  (hostXmlWritten exportDir h xmlData w))) in *.
  assert (exportHost E token server exportDir item w
          = exportTriggersForHost E token server
              (hostDirOf exportDir (HostName h)) (HostID h) w2) as Hiter.
  { rewrite (exportHost_after_xml E token server exportDir item w h xmlData
               Hproj Hxml Hwrite).
    exact (bind_done _ _ _ _ _ Hmetrics). }
  exists line, w2. split; [exact Hline |]. split; [done |].
  split; [exact Hmetrics |]. split; [exact Hiter |].
  split; [| split].
  - rewrite Hiter, exportTriggersForHost_sent. simpl. by rewrite <- app_assoc.
  - rewrite Hiter.
    rewrite exportTriggersForHost_frame by (by apply host_paths_differ).
    simpl. apply lookup_insert_ne. by apply host_paths_differ.
  - intros rest. cbn [for_range]. unfold mbind at 1. unfold M_bind at 1.
    rewrite Hiter. reflexivity.
Qed.

(** C4 on the sample server with two hosts whose item call times out:
    the iteration of [web01] goes on with its trigger fetch. *)
Lemma metric_fetch_failure_is_skipped_witness :
  ∃ line w2,
    (line = "Ошибка при получении метрик для хоста "
            +:+ HostID Cases.web01_host +:+ ": " +:+ "timeout"
     ∨ line = "Ошибка при разборе метрик хоста "
              +:+ HostID Cases.web01_host +:+ ": " +:+ "timeout")
    ∧ w2 = with_logged line
             (with_sent (itemGetRequest Scenario.url Scenario.token
                           (HostID Cases.web01_host))
                (hostXmlWritten Scenario.root Cases.web01_host Loop.web01_xml
                   Scenario.fresh))
    ∧ exportMetricsForHost Loop.items_down Scenario.token Scenario.url
        (hostDirOf Scenario.root (HostName Cases.web01_host))
        (HostID Cases.web01_host)
        (hostXmlWritten Scenario.root Cases.web01_host Loop.web01_xml Scenario.fresh)
      = (Done (), w2)
    ∧ exportHost Loop.items_down Scenario.token Scenario.url Scenario.root
        (JObj Scenario.web01) Scenario.fresh
      = exportTriggersForHost Loop.items_down Scenario.token Scenario.url
          (hostDirOf Scenario.root (HostName Cases.web01_host))
          (HostID Cases.web01_host) w2
    ∧ sent (snd (exportHost Loop.items_down Scenario.token Scenario.url
                   Scenario.root (JObj Scenario.web01) Scenario.fresh))
      = sent Scenario.fresh
        ++ [itemGetRequest Scenario.url Scenario.token (HostID Cases.web01_host);
            triggerGetRequest Scenario.url Scenario.token (HostID Cases.web01_host)]
    ∧ files (snd (exportHost Loop.items_down Scenario.token Scenario.url
                    Scenario.root (JObj Scenario.web01) Scenario.fresh))
        !! (hostDirOf Scenario.root (HostName Cases.web01_host) +:+ "/metrics.json")
      = files Scenario.fresh
          !! (hostDirOf Scenario.root (HostName Cases.web01_host) +:+ "/metrics.json")
    ∧ (∀ rest,
         for_range (exportHost Loop.items_down Scenario.token Scenario.url
                      Scenario.root) (JObj Scenario.web01 :: rest) Scenario.fresh
         = (exportTriggersForHost Loop.items_down Scenario.token Scenario.url
              (hostDirOf Scenario.root (HostName Cases.web01_host))
              (HostID Cases.web01_host);;
            for_range (exportHost Loop.items_down Scenario.token Scenario.url
                         Scenario.root) rest) w2).
Proof.
  apply (metric_fetch_failure_is_skipped Loop.items_down Scenario.token Scenario.url
           Scenario.root (JObj Scenario.web01) Scenario.fresh Cases.web01_host
           Loop.web01_xml "timeout").
  - vm_compute. reflexivity.
  - reflexivity.
  - reflexivity.
  - left. reflexivity.
Defined.



(** What a metric fetch that returns has done. *)
Lemma exportMetricsForHost_done (E : Environment)
    (token server hostDir hostID : string) (w w' : World) :
  exportMetricsForHost E token server hostDir hostID w = (Done (), w') →
  sent w' = sent w ++ [itemGetRequest server token hostID]
  ∧ dirs w' = dirs w
  ∧ (∀ path, has_file w path → has_file w' path)
  ∧ (∀ result, decoded E (sent w) (itemGetRequest server token hostID) result →
               has_file w' (hostDir +:+ "/metrics.json")).
Proof.
  unfold exportMetricsForHost. intros H.
  apply bind_done_inv in H as (resp & w1 & Hpost & H).
  unfold post in Hpost. injection Hpost as <- <-.
  destruct (client_Post E (sent w) (itemGetRequest server token hostID))
    as [err|body] eqn:Hreply.
  - injection H as <-. repeat split; [done |].
    intros result (body & Hbody & _). congruence.
  - destruct (json_Unmarshal E body) as [result|err] eqn:Hdec.
    + apply bind_done_inv in H as (items & w2 & Hitems & H).
      apply bind_done_inv in H as (metrics & w3 & Hmetrics & H).
      apply bind_done_inv in H as ([] & w4 & Hsave & H).
      unfold must in Hitems, Hmetrics.
      destruct (as_slice (Result result)); [| done].
      destruct (mapM projectMetric items); [| done].
      injection Hitems as <- <-. injection Hmetrics as <- <-.
      apply saveToJSON_done in Hsave as (content & ->).
      injection H as <-. repeat split.
      * intros path Hpath. by apply has_file_with_file.
      * intros _ _. apply has_file_written.
    + injection H as <-. repeat split; [done |].
      intros result (body' & Hbody & Hdec'). congruence.
Qed.

(** What a trigger fetch that returns has done. *)
Lemma exportTriggersForHost_done (E : Environment)
    (token server hostDir hostID : string) (w w' : World) :
  exportTriggersForHost E token server hostDir hostID w = (Done (), w') →
  sent w' = sent w ++ [triggerGetRequest server token hostID]
  ∧ dirs w' = dirs w
  ∧ (∀ path, has_file w path → has_file w' path)
  ∧ (∀ result, decoded E (sent w) (triggerGetRequest server token hostID) result →
               Result result ≠ JNull →
               has_file w' (hostDir +:+ "/triggers.json")).
Proof.
  intros H. split.
  { pose proof (exportTriggersForHost_sent E token server hostDir hostID w) as Hs.
    by rewrite H in Hs. }
  revert H. unfold exportTriggersForHost. intros H.
  apply bind_done_inv in H as (resp & w1 & Hpost & H).
  unfold post in Hpost. injection Hpost as <- <-.
  destruct (client_Post E (sent w) (triggerGetRequest server token hostID))
    as [err|body] eqn:Hreply.
  - injection H as <-. repeat split; [done |].
    intros result (body & Hbody & _). congruence.
  - apply bind_done_inv in H as ([] & w2 & Hprint & H).
    injection Hprint as <-.
    destruct (json_Unmarshal E body) as [result|err] eqn:Hdec.
    + destruct (is_nil (Result result)) eqn:Hnil.
      * injection H as <-. repeat split; [done |].
        intros result' (body' & Hbody & Hdec') Hnn.
        assert (result' = result) as -> by congruence.
        by destruct (Result result).
      * apply bind_done_inv in H as (items & w3 & Hitems & H).
        apply bind_done_inv in H as (triggers & w4 & Htriggers & H).
        apply bind_done_inv in H as ([] & w5 & Hsave & H).
        unfold must in Hitems, Htriggers.
        destruct (as_slice (Result result)); [| done].
        destruct (mapM projectTrigger items); [| done].
        injection Hitems as <- <-. injection Htriggers as <- <-.
        apply saveToJSON_done in Hsave as (content & ->).
        injection H as <-. repeat split.
        -- intros path Hpath. by apply has_file_with_file.
        -- intros _ _ _. apply has_file_written.
    + injection H as <-. repeat split; [done |].
      intros result (body' & Hbody & Hdec'). congruence.
Qed.

(** ** The host enumerator *)

(** One iteration of the loop over the host records, when it returns. *)
Lemma exportHost_done (E : Environment) (token server exportDir : string)
    (item : json) (w w' : World) :
  exportHost E token server exportDir item w = (Done (), w') →
  ∃ h, projectHost item = Some h
    ∧ sent w' = sent w ++ hostRequests server token h
    ∧ dirs w' = dirs w ++ [hostDirOf exportDir (HostName h)]
    ∧ (∀ path, has_file w path → has_file w' path)
    ∧ has_file w' (hostDirOf exportDir (HostName h) +:+ "/host.xml")
    ∧ (∀ result,
         decoded E (sent w) (itemGetRequest server token (HostID h)) result →
         has_file w' (hostDirOf exportDir (HostName h) +:+ "/metrics.json"))
    ∧ (∀ result,
         decoded E (sent w ++ [itemGetRequest server token (HostID h)])
                 (triggerGetRequest server token (HostID h)) result →
         Result result ≠ JNull →
         has_file w' (hostDirOf exportDir (HostName h) +:+ "/triggers.json")).
Proof.
  unfold exportHost. intros H.
  apply bind_done_inv in H as (h & w1 & Hproj & H).
  unfold must in Hproj. destruct (projectHost item) as [h'|]; [| done].
  injection Hproj as <- <-.
  apply bind_done_inv in H as ([] & w2 & Hmk & H). injection Hmk as <-.
  apply bind_done_inv in H as ([] & w3 & Hxml & H).
  apply saveToXML_done in Hxml as (content & ->).
  apply bind_done_inv in H as ([] & w4 & Hmetrics & Htriggers).
  apply exportMetricsForHost_done in Hmetrics as (Hs4 & Hd4 & Hkeep4 & Hm).
  apply exportTriggersForHost_done in Htriggers as (Hs5 & Hd5 & Hkeep5 & Ht).
  simpl in Hs4, Hd4, Hm.
  exists h'. split; [done |]. repeat split.
  - rewrite Hs5, Hs4. unfold hostRequests. by rewrite <- app_assoc.
  - by rewrite Hd5, Hd4.
  - intros path Hpath. by apply Hkeep5, Hkeep4, has_file_with_file.
  - apply Hkeep5, Hkeep4, has_file_written.
  - intros result Hdec. by apply Hkeep5, (Hm result).
  - intros result Hdec Hnn. apply (Ht result); [| done]. by rewrite Hs4.
Qed.

(** The whole loop, when it returns. *)
Lemma for_range_exportHost_done (E : Environment) (token server exportDir : string)
    (items : list json) (w w' : World) :
  for_range (exportHost E token server exportDir) items w = (Done (), w') →
  ∃ hosts, mapM projectHost items = Some hosts
    ∧ sent w' = sent w ++ (hosts ≫= hostRequests server token)
    ∧ dirs w' = dirs w ++ ((λ h, hostDirOf exportDir (HostName h)) <$> hosts)
    ∧ (∀ path, has_file w path → has_file w' path)
    ∧ (∀ (i : nat) (h : Host), hosts !! i = Some h →
         has_file w' (hostDirOf exportDir (HostName h) +:+ "/host.xml")
         ∧ (∀ result,
              decoded E (sent w ++ (take i hosts ≫= hostRequests server token))
                      (itemGetRequest server token (HostID h)) result →
              has_file w' (hostDirOf exportDir (HostName h) +:+ "/metrics.json"))
         ∧ (∀ result,
              decoded E (sent w ++ (take i hosts ≫= hostRequests server token)
                         ++ [itemGetRequest server token (HostID h)])
                      (triggerGetRequest server token (HostID h)) result →
              Result result ≠ JNull →
              has_file w' (hostDirOf exportDir (HostName h) +:+ "/triggers.json"))).
Proof.
  revert w. induction items as [|item items IH]; intros w H.
  - injection H as <-. exists []. simpl. rewrite !app_nil_r.
    repeat split; done.
  - cbn [for_range] in H.
    apply bind_done_inv in H as ([] & w1 & Hhead & Htail).
    apply exportHost_done in Hhead
      as (h & Hproj & Hs1 & Hd1 & Hkeep1 & Hxml & Hm & Ht).
    apply IH in Htail as (hosts & Hhosts & Hs & Hd & Hkeep & Heach).
    exists (h :: hosts). split; [| split; [| split; [| split]]].
    + cbn [mapM]. rewrite Hproj, Hhosts. done.
    + rewrite Hs, Hs1. rewrite bind_cons. by rewrite <- app_assoc.
    + rewrite Hd, Hd1. rewrite fmap_cons. by rewrite <- app_assoc.
    + intros path Hpath. by apply Hkeep, Hkeep1.
    + intros [|i] h' Hi.
      * injection Hi as <-. simpl. rewrite app_nil_r.
        split; [by apply Hkeep |]. split.
        -- intros result Hdec. by apply Hkeep, (Hm result).
        -- intros result Hdec Hnn. by apply Hkeep, (Ht result).
      * simpl in Hi. destruct (Heach i h' Hi) as (Hx & Hmi & Hti).
        cbn [take]. rewrite bind_cons. rewrite Hs1 in Hmi, Hti.
        rewrite <- !app_assoc in Hmi, Hti. rewrite <- !app_assoc.
        done.
Qed.

(** The enumerator on a reply without hosts (lines 177-180). *)
Lemma exportHostsWithDetails_no_hosts (E : Environment)
    (token server exportDir : string) (w : World) (result : ZabbixResponse) :
  decoded E (sent w) (hostGetRequest server token) result →
  Result result = JNull ∨ Result result = JArr [] →
  exportHostsWithDetails E token server exportDir w
  = (Done (), with_logged "Нет доступных хостов для экспорта."
                (with_sent (hostGetRequest server token) w)).
Proof.
  intros (body & Hpost & Hdec) Hnone.
  unfold exportHostsWithDetails. run. rewrite Hpost, Hdec.
  by destruct Hnone as [-> | ->].
Qed.

(** The enumerator on a reply with hosts, when it returns (lines 182-234). *)
Lemma exportHostsWithDetails_done (E : Environment)
    (token server exportDir : string) (w w' : World) (result : ZabbixResponse)
    (items : list json) :
  exportHostsWithDetails E token server exportDir w = (Done (), w') →
  decoded E (sent w) (hostGetRequest server token) result →
  Result result = JArr items →
  items ≠ [] →
  ∃ w1, for_range (exportHost E token server exportDir) items
          (with_sent (hostGetRequest server token) w) = (Done (), w1)
        ∧ w' = with_printed "Экспорт хостов завершен." w1.
Proof.
  intros H (body & Hpost & Hdec) Hres Hne. revert H.
  unfold exportHostsWithDetails. intros H.
  apply bind_done_inv in H as (resp & w1 & Hp & H).
  unfold post in Hp. injection Hp as <- <-.
  rewrite Hpost, Hdec, Hres in H. simpl in H.
  apply bind_done_inv in H as (none & w2 & Hnone & H).
  apply bind_done_inv in Hnone as (hosts & w3 & Hhosts & Hnone).
  injection Hhosts as <- <-. injection Hnone as <- <-.
  destruct items as [|item items]; [done |]. simpl in H.
  apply bind_done_inv in H as (hosts & w3 & Hhosts & H).
  injection Hhosts as <- <-.
  apply bind_done_inv in H as ([] & w4 & Hloop & H).
  injection H as <-. eauto.
Qed.

(** [main] once the login has yielded a token (lines 99-147). *)
Lemma main_logged_in (E : Environment) (w : World) (authResult : ZabbixResponse)
    (token : string) :
  godotenv_Load E = true →
  decoded E (sent w) (loginOf E) authResult →
  Code (Error authResult) = 0%Z →
  Result authResult = JStr token →
  token ≠ "" →
  main E w
  = (exportHostsWithDetails E token (serverOf E) (exportDirOf E);;
     fmt_Print "Экспорт данных завершен.") (with_sent (loginOf E) w).
Proof.
  intros Henv (body & Hpost & Hdec) Hcode Hres Htoken.
  unfold loginOf, serverOf, exportDirOf in *.
  unfold main. rewrite Henv. simpl.
  unfold mbind at 1. unfold M_bind at 1. unfold post at 1.
  rewrite Hpost, Hdec, Hcode, Hres. simpl.
  by destruct (String.eqb_spec token "").
Qed.

(** A run of [main] that returns has logged in and run the enumerator. *)
Lemma main_done (E : Environment) (w w' : World) (authResult : ZabbixResponse)
    (token : string) :
  main E w = (Done (), w') →
  decoded E (sent w) (loginOf E) authResult →
  Result authResult = JStr token →
  ∃ w1, exportHostsWithDetails E token (serverOf E) (exportDirOf E)
          (with_sent (loginOf E) w) = (Done (), w1)
        ∧ w' = with_printed "Экспорт данных завершен." w1.
Proof.
  intros H Hlogin Hres.
  assert (godotenv_Load E = true ∧ Code (Error authResult) = 0%Z ∧ token ≠ "")
    as (Henv & Hcode & Htoken).
  { destruct Hlogin as (body & Hpost & Hdec).
    unfold loginOf in *. revert H. unfold main.
    destruct (godotenv_Load E); [| done]. simpl.
    unfold mbind at 1. unfold M_bind at 1. unfold post at 1.
    rewrite Hpost, Hdec, Hres. simpl.
    destruct (Z.eqb_spec (Code (Error authResult)) 0); [| done]. simpl.
    destruct (String.eqb_spec token ""); [done |]. done. }
  rewrite (main_logged_in E w authResult token Henv Hlogin Hcode Hres Htoken) in H.
  apply bind_done_inv in H as ([] & w1 & Hrun & H).
  injection H as <-. eauto.
Qed.

(** C6: when the login succeeds and host enumeration decodes to a null
    or empty result, [main] returns normally after logging that there
    are no hosts; only the two requests were made, no directory was made
    and no file written. *)
Theorem no_hosts_no_files
    (E : Environment) (w : World) (authResult : ZabbixResponse) (token : string)
    (result : ZabbixResponse) :
  godotenv_Load E = true →
  decoded E (sent w) (loginOf E) authResult →
  Code (Error authResult) = 0%Z →
  Result authResult = JStr token →
  token ≠ "" →
  decoded E (sent w ++ [loginOf E]) (hostGetRequest (serverOf E) token) result →
  Result result = JNull ∨ Result result = JArr [] →
  ∃ w', main E w = (Done (), w')
    ∧ dirs w' = dirs w
    ∧ files w' = files w
    ∧ sent w' = sent w ++ [loginOf E; hostGetRequest (serverOf E) token]
    ∧ logged w' = logged w ++ ["Нет доступных хостов для экспорта."]
    ∧ printed w' = printed w ++ ["Экспорт данных завершен."].
Proof.
  intros Henv Hlogin Hcode Hres Htoken Hhosts Hnone.
  rewrite (main_logged_in E w authResult token Henv Hlogin Hcode Hres Htoken).
  pose proof (exportHostsWithDetails_no_hosts E token (serverOf E) (exportDirOf E)
                (with_sent (loginOf E) w) result Hhosts Hnone) as Hrun.
  rewrite (bind_done _ _ _ _ _ Hrun).
  eexists. split; [reflexivity |]. simpl. repeat split.
  by rewrite <- app_assoc.
Qed.

(** C6 on the sample server that lists no host. *)
Lemma no_hosts_no_files_witness :
  ∃ w', main Scenario.no_hosts Scenario.fresh = (Done (), w')
    ∧ dirs w' = dirs Scenario.fresh
    ∧ files w' = files Scenario.fresh
    ∧ sent w' = sent Scenario.fresh
                ++ [loginOf Scenario.no_hosts;
                    hostGetRequest (serverOf Scenario.no_hosts) Scenario.token]
    ∧ logged w' = logged Scenario.fresh ++ ["Нет доступных хостов для экспорта."]
    ∧ printed w' = printed Scenario.fresh ++ ["Экспорт данных завершен."].
Proof.
  apply (no_hosts_no_files Scenario.no_hosts Scenario.fresh
           (Scenario.envelope (JStr Scenario.token)) Scenario.token
           (Scenario.envelope JNull)).
  - reflexivity.
  - exists Scenario.body_token. split; vm_compute; reflexivity.
  - reflexivity.
  - reflexivity.
  - vm_compute. discriminate.
  - exists Scenario.body_null. split; vm_compute; reflexivity.
  - left. reflexivity.
Defined.

(** C2, as amended: in a run of [main] that returns, where host
    enumeration decoded to N > 0 records, the N records are projected to
    N hosts and [os.MkdirAll] is called exactly N times, once per host in
    the order of the reply, on [<root>/hosts/<display name>].  The
    directory of each host has [host.xml]; it has [metrics.json] whenever
    the metric fetch of that host succeeded at transport and decode, and
    [triggers.json] whenever the trigger fetch of that host succeeded at
    transport and decode with a result that is not null. *)
Theorem host_directories_and_files
    (E : Environment) (w w' : World) (authResult : ZabbixResponse) (token : string)
    (result : ZabbixResponse) (items : list json) :
  main E w = (Done (), w') →
  decoded E (sent w) (loginOf E) authResult →
  Result authResult = JStr token →
  decoded E (sent w ++ [loginOf E]) (hostGetRequest (serverOf E) token) result →
  Result result = JArr items →
  items ≠ [] →
  ∃ hosts,
    mapM projectHost items = Some hosts
    ∧ length hosts = length items
    ∧ dirs w' = dirs w ++ (dirOfHost E <$> hosts)
    ∧ (∀ (i : nat) (h : Host), hosts !! i = Some h →
         has_file w' (dirOfHost E h +:+ "/host.xml")
         ∧ (∀ metricResult,
              decoded E (sent w ++ [loginOf E; hostGetRequest (serverOf E) token]
                         ++ (take i hosts ≫= hostRequests (serverOf E) token))
                      (itemGetRequest (serverOf E) token (HostID h)) metricResult →
              has_file w' (dirOfHost E h +:+ "/metrics.json"))
         ∧ (∀ triggerResult,
              decoded E (sent w ++ [loginOf E; hostGetRequest (serverOf E) token]
                         ++ (take i hosts ≫= hostRequests (serverOf E) token)
                         ++ [itemGetRequest (serverOf E) token (HostID h)])
                      (triggerGetRequest (serverOf E) token (HostID h)) triggerResult →
              Result triggerResult ≠ JNull →
              has_file w' (dirOfHost E h +:+ "/triggers.json"))).
Proof.
  intros Hmain Hlogin Htoken Hhosts Hres Hne.
  destruct (main_done E w w' authResult token Hmain Hlogin Htoken) as (w1 & Henum & ->).
  destruct (exportHostsWithDetails_done E token (serverOf E) (exportDirOf E)
              _ w1 result items Henum Hhosts Hres Hne) as (w2 & Hloop & ->).
  apply for_range_exportHost_done in Hloop
    as (hosts & Hproj & Hs & Hd & Hkeep & Heach).
  simpl in Hs, Hd, Heach.
  exists hosts. split; [exact Hproj |]. split; [| split].
  - symmetry. by eapply length_mapM.
  - exact Hd.
  - intros i h Hi. destruct (Heach i h Hi) as (Hxml & Hm & Ht).
    unfold has_file, dirOfHost in *. simpl.
    split; [exact Hxml |]. split.
    + intros r Hdec. apply (Hm r).
      by rewrite <- !app_assoc in *.
    + intros r Hdec Hnn. apply (Ht r); [| exact Hnn].
      by rewrite <- !app_assoc in *.
Qed.

(** The amended C2 on the sample server with two hosts, [web01] and
    [db01], on which every call succeeds. *)
Lemma host_directories_and_files_witness :
  ∃ hosts,
    mapM projectHost [JObj Scenario.web01; JObj Scenario.db01] = Some hosts
    ∧ length hosts = 2
    ∧ dirs (snd (main Scenario.healthy Scenario.fresh))
      = dirOfHost Scenario.healthy <$> hosts
    ∧ (∀ (i : nat) (h : Host), hosts !! i = Some h →
         has_file (snd (main Scenario.healthy Scenario.fresh))
                  (dirOfHost Scenario.healthy h +:+ "/host.xml")
         ∧ (∀ metricResult,
              decoded Scenario.healthy
                ([loginOf Scenario.healthy;
                  hostGetRequest (serverOf Scenario.healthy) Scenario.token]
                 ++ (take i hosts
                       ≫= hostRequests (serverOf Scenario.healthy) Scenario.token))
                (itemGetRequest (serverOf Scenario.healthy) Scenario.token (HostID h))
                metricResult →
              has_file (snd (main Scenario.healthy Scenario.fresh))
                       (dirOfHost Scenario.healthy h +:+ "/metrics.json"))
         ∧ (∀ triggerResult,
              decoded Scenario.healthy
                ([loginOf Scenario.healthy;
                  hostGetRequest (serverOf Scenario.healthy) Scenario.token]
                 ++ (take i hosts
                       ≫= hostRequests (serverOf Scenario.healthy) Scenario.token)
                 ++ [itemGetRequest (serverOf Scenario.healthy) Scenario.token
                       (HostID h)])
                (triggerGetRequest (serverOf Scenario.healthy) Scenario.token
                   (HostID h)) triggerResult →
              Result triggerResult ≠ JNull →
              has_file (snd (main Scenario.healthy Scenario.fresh))
                       (dirOfHost Scenario.healthy h +:+ "/triggers.json"))).
Proof.
  apply (host_directories_and_files Scenario.healthy Scenario.fresh
           (snd (main Scenario.healthy Scenario.fresh))
           (Scenario.envelope (JStr Scenario.token)) Scenario.token
           (Scenario.envelope (JArr [JObj Scenario.web01; JObj Scenario.db01]))
           [JObj Scenario.web01; JObj Scenario.db01]).
  - vm_compute. reflexivity.
  - exists Scenario.body_token. split; vm_compute; reflexivity.
  - reflexivity.
  - exists Scenario.body_two_hosts. split; vm_compute; reflexivity.
  - reflexivity.
  - discriminate.
Defined.

(** C2 as stated fails on three sample servers, on each of which the run
    returns normally.  On the first the host reply lists [web01] twice
    and every call succeeds: there are N = 2 hosts, but both directory
    calls are on the same path and the disk ends with one host directory
    and three files.  On the second the item call times out and the
    directory of the one host is left without [metrics.json]; on the
    third the trigger call times out and it is left without
    [triggers.json] although no trigger reply was null. *)
Lemma missing_metrics_file_counterexample :
  (fst (main Loop.twins Scenario.fresh) = Done ()
   ∧ decoded Loop.twins [loginOf Loop.twins]
       (hostGetRequest (serverOf Loop.twins) Scenario.token)
       (Scenario.envelope (JArr [JObj Scenario.web01; JObj Scenario.web01]))
   ∧ dirs (snd (main Loop.twins Scenario.fresh))
     = ["/srv/export/hosts/web01"; "/srv/export/hosts/web01"]
   ∧ dom (files (snd (main Loop.twins Scenario.fresh)))
     = {[ "/srv/export/hosts/web01/host.xml";
          "/srv/export/hosts/web01/metrics.json";
          "/srv/export/hosts/web01/triggers.json" ]})
  ∧ (fst (main Scenario.items_down Scenario.fresh) = Done ()
     ∧ decoded Scenario.items_down [loginOf Scenario.items_down]
         (hostGetRequest (serverOf Scenario.items_down) Scenario.token)
         (Scenario.envelope (JArr [JObj Scenario.web01]))
     ∧ dirs (snd (main Scenario.items_down Scenario.fresh))
       = ["/srv/export/hosts/web01"]
     ∧ has_file (snd (main Scenario.items_down Scenario.fresh))
                "/srv/export/hosts/web01/host.xml"
     ∧ ¬ has_file (snd (main Scenario.items_down Scenario.fresh))
                  "/srv/export/hosts/web01/metrics.json")
  ∧ (fst (main Scenario.triggers_down Scenario.fresh) = Done ()
     ∧ decoded Scenario.triggers_down [loginOf Scenario.triggers_down]
         (hostGetRequest (serverOf Scenario.triggers_down) Scenario.token)
         (Scenario.envelope (JArr [JObj Scenario.web01]))
     ∧ dirs (snd (main Scenario.triggers_down Scenario.fresh))
       = ["/srv/export/hosts/web01"]
     ∧ (∀ history,
          client_Post Scenario.triggers_down history
            (triggerGetRequest (serverOf Scenario.triggers_down) Scenario.token
               "10084")
          = TransportError "timeout")
     ∧ has_file (snd (main Scenario.triggers_down Scenario.fresh))
                "/srv/export/hosts/web01/host.xml"
     ∧ ¬ has_file (snd (main Scenario.triggers_down Scenario.fresh))
                  "/srv/export/hosts/web01/triggers.json").
Proof.
  unfold has_file. split; [| split].
  - split; [vm_compute; reflexivity |].
    split; [exists Loop.body_twins; split; vm_compute; reflexivity |].
    split; vm_compute; reflexivity.
  - split; [vm_compute; reflexivity |].
    split; [exists Scenario.body_one_host; split; vm_compute; reflexivity |].
    split; [vm_compute; reflexivity |].
    split; [vm_compute; eauto |].
    intros [content H]. vm_compute in H. discriminate.
  - split; [vm_compute; reflexivity |].
    split; [exists Scenario.body_one_host; split; vm_compute; reflexivity |].
    split; [vm_compute; reflexivity |].
    split; [intros history; reflexivity |].
    split; [vm_compute; eauto |].
    intros [content H]. vm_compute in H. discriminate.
Qed.

(** A whole run on the sample server that answers the item call with a
    null result: the panic of the metric fetcher ends the process after
    [host.xml] of the first host, before any trigger is asked for. *)
Example null_items_run_panics :
  fst (main Scenario.null_items Scenario.fresh) = Panicked
  ∧ sent (snd (main Scenario.null_items Scenario.fresh))
    = [loginOf Scenario.null_items;
       hostGetRequest (serverOf Scenario.null_items) Scenario.token;
       itemGetRequest (serverOf Scenario.null_items) Scenario.token "10084"].
Proof. split; vm_compute; reflexivity. Qed.

(** A whole run on the sample server on which every call succeeds. *)
Example healthy_run :
  fst (main Scenario.healthy Scenario.fresh) = Done ()
  ∧ dirs (snd (main Scenario.healthy Scenario.fresh))
    = ["/srv/export/hosts/web01"; "/srv/export/hosts/db01"]
  ∧ dom (files (snd (main Scenario.healthy Scenario.fresh)))
    = {[ "/srv/export/hosts/web01/host.xml";
         "/srv/export/hosts/web01/metrics.json";
         "/srv/export/hosts/web01/triggers.json";
         "/srv/export/hosts/db01/host.xml";
         "/srv/export/hosts/db01/metrics.json";
         "/srv/export/hosts/db01/triggers.json" ]}.
Proof. repeat split; vm_compute; reflexivity. Qed.

(** ** More on the session establisher *)

(** X1: when the login call fails at transport or its body does not
    decode, [main] exits through [log.Fatalf] with the error text in the
    message; the login call is the only request made and the disk is left
    as it was. *)
Theorem login_fetch_failure_is_fatal (E : Environment) (w : World) (err : string) :
  godotenv_Load E = true →
  fetch_failed E (sent w) (loginOf E) err →
  ∃ line,
    main E w = (Exited, with_logged line (with_sent (loginOf E) w))
    ∧ (line = "Ошибка при запросе к Zabbix API: " +:+ err
       ∨ line = "Ошибка при разборе ответа от Zabbix API: " +:+ err).
Proof.
  intros Henv Hfail. unfold loginOf in *.
  destruct Hfail as [Hpost | (body & Hpost & Hdec)].
  - exists ("Ошибка при запросе к Zabbix API: " +:+ err). split; [| by left].
    unfold main. rewrite Henv. simpl. run. by rewrite Hpost.
  - exists ("Ошибка при разборе ответа от Zabbix API: " +:+ err). split; [| by right].
    unfold main. rewrite Henv. simpl. run. by rewrite Hpost, Hdec.
Qed.

(** X1 on a sample server whose login call times out. *)
Lemma login_fetch_failure_is_fatal_witness :
  ∃ line,
    main (Cases.env (TransportError "timeout") (Response Scenario.body_two_hosts)
            (Response Scenario.body_items) (Response Scenario.body_triggers)
            Cases.writable) Scenario.fresh
    = (Exited,
       with_logged line
         (with_sent
            (loginOf (Cases.env (TransportError "timeout")
                        (Response Scenario.body_two_hosts)
                        (Response Scenario.body_items)
                        (Response Scenario.body_triggers) Cases.writable))
            Scenario.fresh))
    ∧ (line = "Ошибка при запросе к Zabbix API: " +:+ "timeout"
       ∨ line = "Ошибка при разборе ответа от Zabbix API: " +:+ "timeout").
Proof.
  apply (login_fetch_failure_is_fatal
           (Cases.env (TransportError "timeout") (Response Scenario.body_two_hosts)
              (Response Scenario.body_items) (Response Scenario.body_triggers)
              Cases.writable) Scenario.fresh "timeout").
  - reflexivity.
  - left. reflexivity.
Defined.

(** X2: when the login reply decodes with error code zero but its result
    is not a non-empty string (absent, of another type, or the empty
    string), [main] exits with the message that no token was obtained,
    after the login call alone. *)
Theorem missing_token_is_fatal
    (E : Environment) (w : World) (authResult : ZabbixResponse) :
  godotenv_Load E = true →
  decoded E (sent w) (loginOf E) authResult →
  Code (Error authResult) = 0%Z →
  (∀ token, Result authResult = JStr token → token = "") →
  main E w
  = (Exited, with_logged "Ошибка: Токен аутентификации не получен"
               (with_sent (loginOf E) w)).
Proof.
  intros Henv (body & Hpost & Hdec) Hcode Hnone. unfold loginOf in *.
  unfold main. rewrite Henv. simpl. run. rewrite Hpost, Hdec, Hcode. simpl.
  destruct (Result authResult) as [| | |token| |]; try done.
  simpl. by rewrite (Hnone token eq_refl).
Qed.

(** X2 on a sample server whose login result is [true]. *)
Lemma missing_token_is_fatal_witness :
  main (Cases.env (Response Cases.body_true) (Response Scenario.body_two_hosts)
          (Response Scenario.body_items) (Response Scenario.body_triggers)
          Cases.writable) Scenario.fresh
  = (Exited, with_logged "Ошибка: Токен аутентификации не получен"
               (with_sent
                  (loginOf (Cases.env (Response Cases.body_true)
                              (Response Scenario.body_two_hosts)
                              (Response Scenario.body_items)
                              (Response Scenario.body_triggers) Cases.writable))
                  Scenario.fresh)).
Proof.
  apply (missing_token_is_fatal
           (Cases.env (Response Cases.body_true) (Response Scenario.body_two_hosts)
              (Response Scenario.body_items) (Response Scenario.body_triggers)
              Cases.writable) Scenario.fresh (Scenario.envelope (JBool true))).
  - reflexivity.
  - exists Cases.body_true. split; vm_compute; reflexivity.
  - reflexivity.
  - intros token H. discriminate H.
Defined.

(** X3: a run of [main] that returns normally loaded [.env], obtained a
    non-empty token from a login reply with error code zero, and got a
    host reply that decoded to null or to a list; its last printed line
    is the closing line of [main]. *)
Theorem returning_run_had_session (E : Environment) (w w' : World) :
  main E w = (Done (), w') →
  godotenv_Load E = true
  ∧ (∃ authResult token result,
       decoded E (sent w) (loginOf E) authResult
       ∧ Code (Error authResult) = 0%Z
       ∧ Result authResult = JStr token
       ∧ token ≠ ""
       ∧ decoded E (sent w ++ [loginOf E]) (hostGetRequest (serverOf E) token) result
       ∧ (Result result = JNull ∨ ∃ items, Result result = JArr items))
  ∧ last (printed w') = Some "Экспорт данных завершен.".
Proof.
  unfold main, loginOf, serverOf. intros H.
  destruct (godotenv_Load E); [| done]. simpl in H.
  apply bind_done_inv in H as (resp & w1 & Hpost & H).
  unfold post in Hpost. injection Hpost as <- <-.
  destruct (client_Post E (sent w) _) as [err|body] eqn:Hreply; [done |].
  destruct (json_Unmarshal E body) as [authResult|err] eqn:Hdec; [| done].
  destruct (Z.eqb_spec (Code (Error authResult)) 0) as [Hcode|]; [| done].
  simpl in H.
  destruct (Result authResult) as [| | |token| |] eqn:Hres; try done.
  simpl in H. destruct (String.eqb_spec token "") as [|Htoken]; [done |].
  apply bind_done_inv in H as ([] & w2 & Henum & H). injection H as <-.
  split; [done |]. split; [| simpl; by rewrite last_snoc].
  exists authResult, token.
  unfold exportHostsWithDetails in Henum.
  apply bind_done_inv in Henum as (resp & w3 & Hpost & Henum).
  unfold post in Hpost. injection Hpost as <- <-. simpl in Henum.
  destruct (client_Post E (sent w ++ _) _) as [err|body2] eqn:Hreply2; [done |].
  destruct (json_Unmarshal E body2) as [result|err] eqn:Hdec2; [| done].
  exists result.
  split; [by exists body |]. split; [done |]. split; [done |]. split; [done |].
  split; [by exists body2 |].
  apply bind_done_inv in Henum as (none & w4 & Hnone & _).
  destruct (Result result); simpl in Hnone; try done; eauto.
Qed.

(** X3 on the sample server on which every call succeeds. *)
Lemma returning_run_had_session_witness :
  godotenv_Load Scenario.healthy = true
  ∧ (∃ authResult token result,
       decoded Scenario.healthy (sent Scenario.fresh) (loginOf Scenario.healthy)
         authResult
       ∧ Code (Error authResult) = 0%Z
       ∧ Result authResult = JStr token
       ∧ token ≠ ""
       ∧ decoded Scenario.healthy (sent Scenario.fresh ++ [loginOf Scenario.healthy])
           (hostGetRequest (serverOf Scenario.healthy) token) result
       ∧ (Result result = JNull ∨ ∃ items, Result result = JArr items))
  ∧ last (printed (snd (main Scenario.healthy Scenario.fresh)))
    = Some "Экспорт данных завершен.".
Proof.
  apply (returning_run_had_session Scenario.healthy Scenario.fresh
           (snd (main Scenario.healthy Scenario.fresh))).
  vm_compute. reflexivity.
Defined.

(** ** More on the host enumerator *)

(** X4: when the host call fails at transport or its body does not
    decode, the enumerator exits through [log.Fatalf] with the error text
    in the message; no directory is made and no file written. *)
Theorem host_fetch_failure_is_fatal
    (E : Environment) (token server exportDir : string) (w : World) (err : string) :
  fetch_failed E (sent w) (hostGetRequest server token) err →
  ∃ line,
    exportHostsWithDetails E token server exportDir w
    = (Exited, with_logged line (with_sent (hostGetRequest server token) w))
    ∧ (line = "Ошибка при запросе к Zabbix API: " +:+ err
       ∨ line = "Ошибка при разборе ответа от Zabbix API: " +:+ err).
Proof.
  intros [Hpost | (body & Hpost & Hdec)].
  - exists ("Ошибка при запросе к Zabbix API: " +:+ err). split; [| by left].
    unfold exportHostsWithDetails. run. by rewrite Hpost.
  - exists ("Ошибка при разборе ответа от Zabbix API: " +:+ err). split; [| by right].
    unfold exportHostsWithDetails. run. by rewrite Hpost, Hdec.
Qed.

(** X4 on a sample server whose host reply is not JSON. *)
Lemma host_fetch_failure_is_fatal_witness :
  ∃ line,
    exportHostsWithDetails
      (Cases.env (Response Scenario.body_token) (Response "<html>502</html>")
         (Response Scenario.body_items) (Response Scenario.body_triggers)
         Cases.writable)
      Scenario.token Scenario.url Scenario.root Scenario.fresh
    = (Exited,
       with_logged line
         (with_sent (hostGetRequest Scenario.url Scenario.token) Scenario.fresh))
    ∧ (line = "Ошибка при запросе к Zabbix API: "
              +:+ "invalid character 'o' in literal null (expecting 'u')"
       ∨ line = "Ошибка при разборе ответа от Zabbix API: "
                +:+ "invalid character 'o' in literal null (expecting 'u')").
Proof.
  apply (host_fetch_failure_is_fatal
           (Cases.env (Response Scenario.body_token) (Response "<html>502</html>")
              (Response Scenario.body_items) (Response Scenario.body_triggers)
              Cases.writable)
           Scenario.token Scenario.url Scenario.root Scenario.fresh
           "invalid character 'o' in literal null (expecting 'u')").
  right. exists "<html>502</html>". split; vm_compute; reflexivity.
Defined.

(** X5: when the host reply decodes to a result that is neither null nor
    a list, the assertion inside the length test of line 177 panics:
    nothing is logged, no directory is made and no file written. *)
Theorem host_result_not_a_list_panics
    (E : Environment) (token server exportDir : string) (w : World)
    (result : ZabbixResponse) :
  decoded E (sent w) (hostGetRequest server token) result →
  Result result ≠ JNull →
  (∀ items, Result result ≠ JArr items) →
  exportHostsWithDetails E token server exportDir w
  = (Panicked, with_sent (hostGetRequest server token) w).
Proof.
  intros (body & Hpost & Hdec) Hnn Hnl.
  unfold exportHostsWithDetails. run. rewrite Hpost, Hdec.
  destruct (Result result) as [| | | |items|]; try done.
  by destruct (Hnl items).
Qed.

(** X5 on a sample server whose host result is [true]. *)
Lemma host_result_not_a_list_panics_witness :
  exportHostsWithDetails
    (Cases.env (Response Scenario.body_token) (Response Cases.body_true)
       (Response Scenario.body_items) (Response Scenario.body_triggers)
       Cases.writable)
    Scenario.token Scenario.url Scenario.root Scenario.fresh
  = (Panicked, with_sent (hostGetRequest Scenario.url Scenario.token) Scenario.fresh).
Proof.
  apply (host_result_not_a_list_panics
           (Cases.env (Response Scenario.body_token) (Response Cases.body_true)
              (Response Scenario.body_items) (Response Scenario.body_triggers)
              Cases.writable)
           Scenario.token Scenario.url Scenario.root Scenario.fresh
           (Scenario.envelope (JBool true))).
  - exists Cases.body_true. split; vm_compute; reflexivity.
  - discriminate.
  - intros items. discriminate.
Defined.

(** X6: the enumerator does not look at the error of the host reply.  An
    envelope with a non-zero error code and no result is taken for an
    empty host list: the run logs that there are no hosts and returns,
    and the error message of the envelope is not logged. *)
Theorem host_error_envelope_is_taken_for_no_hosts
    (E : Environment) (token server exportDir : string) (w : World)
    (result : ZabbixResponse) :
  decoded E (sent w) (hostGetRequest server token) result →
  Code (Error result) ≠ 0%Z →
  Result result = JNull →
  ∃ w', exportHostsWithDetails E token server exportDir w = (Done (), w')
    ∧ logged w' = logged w ++ ["Нет доступных хостов для экспорта."]
    ∧ printed w' = printed w
    ∧ dirs w' = dirs w
    ∧ files w' = files w.
Proof.
  intros Hdec _ Hnull. eexists. split.
  - apply (exportHostsWithDetails_no_hosts E token server exportDir w result Hdec).
    by left.
  - done.
Qed.

(** X6 on a sample server that answers the host call with "session
    terminated". *)
Lemma host_error_envelope_is_taken_for_no_hosts_witness :
  ∃ w', exportHostsWithDetails
          (Cases.env (Response Scenario.body_token) (Response Cases.body_expired)
             (Response Scenario.body_items) (Response Scenario.body_triggers)
             Cases.writable)
          Scenario.token Scenario.url Scenario.root Scenario.fresh = (Done (), w')
    ∧ logged w' = logged Scenario.fresh ++ ["Нет доступных хостов для экспорта."]
    ∧ printed w' = printed Scenario.fresh
    ∧ dirs w' = dirs Scenario.fresh
    ∧ files w' = files Scenario.fresh.
Proof.
  apply (host_error_envelope_is_taken_for_no_hosts
           (Cases.env (Response Scenario.body_token) (Response Cases.body_expired)
              (Response Scenario.body_items) (Response Scenario.body_triggers)
              Cases.writable)
           Scenario.token Scenario.url Scenario.root Scenario.fresh Cases.expired).
  - exists Cases.body_expired. split; vm_compute; reflexivity.
  - vm_compute. discriminate.
  - reflexivity.
Defined.

(** The loop over a list in two parts is the two loops in sequence. *)
Lemma for_range_app {A} (body : A → M unit) (l1 l2 : list A) (w : World) :
  for_range body (l1 ++ l2) w = (for_range body l1;; for_range body l2) w.
Proof.
  revert w. induction l1 as [|x l1 IH]; intros w; [done |].
  simpl. unfold mbind, M_bind.
  destruct (body x w) as [[[]| |] w1]; [| done | done].
  rewrite IH. done.
Qed.

(** X7: there is no isolation between hosts.  When the records [before]
    have been exported and the next record is not projected (a mandatory
    field is missing or of the wrong type), the loop panics in the world
    left by [before]: nothing is done for the bad record or for the
    records after it. *)
Theorem malformed_host_stops_the_loop
    (E : Environment) (token server exportDir : string)
    (before after : list json) (bad : json) (w w1 : World) :
  for_range (exportHost E token server exportDir) before w = (Done (), w1) →
  projectHost bad = None →
  for_range (exportHost E token server exportDir) (before ++ bad :: after) w
  = (Panicked, w1).
Proof.
  intros Hbefore Hbad. rewrite for_range_app.
  rewrite (bind_done _ _ _ _ _ Hbefore). cbn [for_range].
  apply bind_panicked. unfold exportHost.
  apply bind_panicked. unfold must. by rewrite Hbad.
Qed.

(** X7 on the sample hosts: [db01], then [web01] without its flag, then
    the complete [web01]. *)
Lemma malformed_host_stops_the_loop_witness :
  for_range (exportHost Cases.healthy Scenario.token Scenario.url Scenario.root)
    ([JObj Scenario.db01] ++ JObj Scenario.web01_core :: [JObj Scenario.web01])
    Scenario.fresh
  = (Panicked,
     snd (for_range (exportHost Cases.healthy Scenario.token Scenario.url Scenario.root)
            [JObj Scenario.db01] Scenario.fresh)).
Proof.
  apply (malformed_host_stops_the_loop Cases.healthy Scenario.token Scenario.url
           Scenario.root [JObj Scenario.db01] [JObj Scenario.web01]
           (JObj Scenario.web01_core) Scenario.fresh).
  - vm_compute. reflexivity.
  - vm_compute. reflexivity.
Defined.

(** X8: when [host.xml] of a host cannot be written, the run exits
    through [log.Fatalf] naming the file and the error, right after the
    directory call: neither the metrics nor the triggers of that host are
    asked for. *)
Theorem unwritable_host_xml_is_fatal
    (E : Environment) (token server exportDir : string) (item : json) (w : World)
    (h : Host) (xmlData err : string) :
  projectHost item = Some h →
  xml_MarshalIndent E (OfHost h) = GoOk xmlData →
  os_WriteFile_err E (with_dir (hostDirOf exportDir (HostName h)) w)
    (hostDirOf exportDir (HostName h) +:+ "/host.xml") (xml_Header +:+ xmlData)
  = Some err →
  exportHost E token server exportDir item w
  = (Exited,
     with_logged ("Ошибка при сохранении XML-файла "
                  +:+ (hostDirOf exportDir (HostName h) +:+ "/host.xml")
                  +:+ ": " +:+ err)
       (with_dir (hostDirOf exportDir (HostName h)) w)).
Proof.
  intros Hproj Hxml Hwrite.
  unfold exportHost. rewrite Hproj. run.
  unfold saveToXML. rewrite Hxml. run. by rewrite Hwrite.
Qed.

(** X8 on the sample host [web01] and a disk that refuses every write. *)
Lemma unwritable_host_xml_is_fatal_witness :
  exportHost
    (Cases.env (Response Scenario.body_token) (Response Scenario.body_one_host)
       (Response Scenario.body_items) (Response Scenario.body_triggers)
       Cases.read_only)
    Scenario.token Scenario.url Scenario.root (JObj Scenario.web01) Scenario.fresh
  = (Exited,
     with_logged ("Ошибка при сохранении XML-файла "
                  +:+ ("/srv/export/hosts/web01" +:+ "/host.xml")
                  +:+ ": " +:+ "permission denied")
       (with_dir "/srv/export/hosts/web01" Scenario.fresh)).
Proof.
  apply (unwritable_host_xml_is_fatal
           (Cases.env (Response Scenario.body_token) (Response Scenario.body_one_host)
              (Response Scenario.body_items) (Response Scenario.body_triggers)
              Cases.read_only)
           Scenario.token Scenario.url Scenario.root (JObj Scenario.web01)
           Scenario.fresh
           Cases.web01_host
           "<host><hostid>10084</hostid></host>" "permission denied").
  - vm_compute. reflexivity.
  - reflexivity.
  - reflexivity.
Defined.

(** ** More on the projection of records *)

Lemma as_string_index (data : gmap string json) (key s : string) :
  as_string (index data key) = Some s ↔ data !! key = Some (JStr s).
Proof.
  unfold index. split.
  - destruct (data !! key) as [[| | |s'| |]|]; simpl; try done. by intros [= ->].
  - by intros ->.
Qed.

Lemma as_string_index_none (data : gmap string json) (key : string) :
  (∀ s, data !! key ≠ Some (JStr s)) → as_string (index data key) = None.
Proof.
  intros H. destruct (as_string (index data key)) as [s|] eqn:Hs; [| done].
  apply as_string_index in Hs. by destruct (H s).
Qed.

(** X9: a host record is not projected (the run panics) when one of
    [hostid], [name], [status] or [available] is missing or is not a
    string, and also when its interface list is empty. *)
Theorem mandatory_host_field_missing_panics (data : gmap string json) :
  (∀ key, key ∈ ["hostid"; "name"; "status"; "available"] →
          (∀ s, data !! key ≠ Some (JStr s)) →
          projectHost (JObj data) = None)
  ∧ (data !! "interfaces" = Some (JArr []) → projectHost (JObj data) = None).
Proof.
  split.
  - intros key Hkey Hnone. apply as_string_index_none in Hnone.
    unfold projectHost. simpl.
    assert (key = "available" ∨ key = "hostid" ∨ key = "name" ∨ key = "status")
      as [-> | Hlit].
    { rewrite !elem_of_cons, elem_of_nil in Hkey. tauto. }
    + unfold availabilityOf. by rewrite Hnone.
    + destruct (availabilityOf data) as [a|]; [simpl | done].
      assert (hostLiteral data a = None) as ->; [| done].
      unfold hostLiteral.
      destruct Hlit as [-> | [-> | ->]]; rewrite Hnone; simpl; [done | |].
      * by destruct (as_string (index data "hostid")).
      * destruct (as_string (index data "hostid")); [simpl | done].
        destruct (as_string (index data "name")); [simpl | done].
        by destruct (firstInterfaceIP data).
  - intros Hifs. unfold projectHost. simpl.
    destruct (availabilityOf data) as [a|]; [simpl | done].
    assert (hostLiteral data a = None) as ->; [| done].
    unfold hostLiteral, firstInterfaceIP. rewrite (index_lookup _ _ _ Hifs). simpl.
    destruct (as_string (index data "hostid")); [simpl | done].
    by destruct (as_string (index data "name")).
Qed.

(** X9 on [web01] with its [status] taken away, and with no interface. *)
Lemma mandatory_host_field_missing_panics_witness :
  projectHost (JObj (delete "status" Scenario.web01)) = None
  ∧ projectHost (JObj (<["interfaces" := JArr []]> Scenario.web01)) = None.
Proof.
  split.
  - apply (proj1 (mandatory_host_field_missing_panics
                    (delete "status" Scenario.web01)) "status").
    + rewrite !elem_of_cons. tauto.
    + intros s. vm_compute. discriminate.
  - apply (proj2 (mandatory_host_field_missing_panics
                    (<["interfaces" := JArr []]> Scenario.web01))).
    vm_compute. reflexivity.
Defined.

Lemma mapM_projected {A} (project : json → option A) (l : list json) (k : list A) :
  mapM project l = Some k → Forall2 (λ x y, project x = Some y) l k.
Proof. apply mapM_Some. Qed.

Lemma projectGroup_fields (group : json) (g : Group) :
  projectGroup group = Some g →
  ∃ m, group = JObj m
       ∧ m !! "groupid" = Some (JStr (GroupID g))
       ∧ m !! "name" = Some (JStr (Group_Name g)).
Proof.
  unfold projectGroup. destruct group as [| | | | |m]; try done. simpl.
  destruct (as_string (index m "groupid")) as [gid|] eqn:Hid; [simpl | done].
  destruct (as_string (index m "name")) as [name|] eqn:Hname; [simpl | done].
  intros [= <-]. exists m. by rewrite <- !as_string_index.
Qed.

Lemma projectTemplate_fields (template : json) (t : Template) :
  projectTemplate template = Some t →
  ∃ m, template = JObj m
       ∧ m !! "templateid" = Some (JStr (TemplateID t))
       ∧ m !! "name" = Some (JStr (Template_Name t)).
Proof.
  unfold projectTemplate. destruct template as [| | | | |m]; try done. simpl.
  destruct (as_string (index m "templateid")) as [tid|] eqn:Hid; [simpl | done].
  destruct (as_string (index m "name")) as [name|] eqn:Hname; [simpl | done].
  intros [= <-]. exists m. by rewrite <- !as_string_index.
Qed.

Lemma projectHost_lists (data : gmap string json) (h : Host) :
  projectHost (JObj data) = Some h →
  groupsOf data = Some (Groups h) ∧ templatesOf data = Some (Templates h).
Proof.
  unfold projectHost. simpl. intros H.
  destruct (availabilityOf data) as [a|]; [simpl in H | done].
  destruct (hostLiteral data a) as [lit|]; [simpl in H | done].
  destruct (groupsOf data); [simpl in H | done].
  destruct (templatesOf data); [simpl in H | done].
  by injection H as <-.
Qed.

(** Two records that differ at one key only. *)
Section OneKeyChanged.

Variables (data data' : gmap string json) (changed : string).
Hypothesis agree : ∀ key, key ≠ changed → data' !! key = data !! key.

Lemma index_agree (key : string) :
  key ≠ changed → index data' key = index data key.
Proof. intros Hne. unfold index. by rewrite agree. Qed.

Lemma availabilityOf_agree :
  "available" ≠ changed → availabilityOf data' = availabilityOf data.
Proof. intros Hne. unfold availabilityOf. by rewrite index_agree. Qed.

Lemma hostLiteral_agree (availability : string) :
  "hostid" ≠ changed → "name" ≠ changed → "interfaces" ≠ changed →
  "status" ≠ changed →
  hostLiteral data' availability = hostLiteral data availability.
Proof.
  intros H1 H2 H3 H4. unfold hostLiteral, firstInterfaceIP.
  by rewrite !index_agree.
Qed.

Lemma groupsOf_agree : "groups" ≠ changed → groupsOf data' = groupsOf data.
Proof. intros Hne. unfold groupsOf. by rewrite index_agree. Qed.

Lemma templatesOf_agree :
  "parentTemplates" ≠ changed → templatesOf data' = templatesOf data.
Proof. intros Hne. unfold templatesOf. by rewrite index_agree. Qed.

Lemma notesOf_agree : "description" ≠ changed → notesOf data' = notesOf data.
Proof. intros Hne. unfold notesOf. by rewrite index_agree. Qed.

(** A change at a key that is not mandatory keeps the record projected;
    only the notes, groups and templates can differ. *)
Lemma projectHost_agree (h : Host) (groups : list Group) (templates : list Template) :
  "available" ≠ changed → "hostid" ≠ changed → "name" ≠ changed →
  "interfaces" ≠ changed → "status" ≠ changed →
  projectHost (JObj data) = Some h →
  groupsOf data' = Some groups →
  templatesOf data' = Some templates →
  projectHost (JObj data')
  = Some (withTemplates templates (withGroups groups (withNotes (notesOf data') h))).
Proof.
  intros Ha H1 H2 H3 H4 Hh Hg Ht. revert Hh. unfold projectHost. simpl.
  rewrite (availabilityOf_agree Ha).
  destruct (availabilityOf data) as [a|]; [simpl | done].
  rewrite (hostLiteral_agree a H1 H2 H3 H4).
  destruct (hostLiteral data a) as [lit|]; [simpl | done].
  rewrite Hg, Ht.
  destruct (groupsOf data); [simpl | done].
  destruct (templatesOf data); [simpl | done].
  by intros [= <-].
Qed.

End OneKeyChanged.

Lemma notesOf_not_string (data : gmap string json) :
  (∀ s, data !! "description" ≠ Some (JStr s)) → notesOf data = "".
Proof. intros H. unfold notesOf. by rewrite (as_string_index_none _ _ H). Qed.

Lemma projectHost_notes (data : gmap string json) (h : Host) :
  projectHost (JObj data) = Some h → Notes h = notesOf data.
Proof.
  unfold projectHost. simpl. intros H.
  destruct (availabilityOf data) as [a|]; [simpl in H | done].
  destruct (hostLiteral data a) as [lit|]; [simpl in H | done].
  destruct (groupsOf data); [simpl in H | done].
  destruct (templatesOf data); [simpl in H | done].
  by injection H as <-.
Qed.

(** X10: the description of a host record is optional.  In a projected
    Host the notes are the [description] when it is a string; replacing
    the [description] of a projected record by anything that is not a
    string, or removing it, still gives a Host, the same one with empty
    notes (no panic).  The interface list and the XML name of every
    projected Host are left at their zero value: the interfaces of the
    record are never copied into the Host. *)
Theorem host_notes_and_unset_fields (data : gmap string json) (h : Host) :
  projectHost (JObj data) = Some h →
  Notes h = getStringFromMap data "description"
  ∧ Interfaces h = []
  ∧ XMLName h = {| Space := ""; Local := "" |}
  ∧ (∀ v, (∀ s, v ≠ JStr s) →
          projectHost (JObj (<["description" := v]> data)) = Some (withNotes "" h))
  ∧ projectHost (JObj (delete "description" data)) = Some (withNotes "" h).
Proof.
  intros H.
  destruct (projectHost_lists _ _ H) as [Hg Ht].
  split; [| split; [| split; [| split]]].
  - rewrite (projectHost_notes _ _ H).
    unfold notesOf, getStringFromMap, index. by destruct (data !! "description").
  - revert H. unfold projectHost. simpl.
    destruct (availabilityOf data) as [a|]; [simpl | done].
    destruct (hostLiteral data a) as [lit|] eqn:Hlit; [simpl | done].
    destruct (groupsOf data); [simpl | done].
    destruct (templatesOf data); [simpl | done].
    intros [= <-]. simpl. unfold hostLiteral in Hlit.
    destruct (as_string (index data "hostid")); [simpl in Hlit | done].
    destruct (as_string (index data "name")); [simpl in Hlit | done].
    destruct (firstInterfaceIP data); [simpl in Hlit | done].
    destruct (as_string (index data "status")); [simpl in Hlit | done].
    by injection Hlit as <-.
  - revert H. unfold projectHost. simpl.
    destruct (availabilityOf data) as [a|]; [simpl | done].
    destruct (hostLiteral data a) as [lit|] eqn:Hlit; [simpl | done].
    destruct (groupsOf data); [simpl | done].
    destruct (templatesOf data); [simpl | done].
    intros [= <-]. simpl. unfold hostLiteral in Hlit.
    destruct (as_string (index data "hostid")); [simpl in Hlit | done].
    destruct (as_string (index data "name")); [simpl in Hlit | done].
    destruct (firstInterfaceIP data); [simpl in Hlit | done].
    destruct (as_string (index data "status")); [simpl in Hlit | done].
    by injection Hlit as <-.
  - intros v Hv.
    assert (∀ key, key ≠ "description" →
              <["description" := v]> data !! key = data !! key) as Hagree
      by (intros key Hne; by apply lookup_insert_ne).
    rewrite (projectHost_agree data _ "description" Hagree h (Groups h) (Templates h));
      try done.
    + rewrite notesOf_not_string; [by destruct h |].
      intros s. rewrite lookup_insert_eq. intros [= ->]. by destruct (Hv s).
    + by rewrite (groupsOf_agree data _ "description" Hagree).
    + by rewrite (templatesOf_agree data _ "description" Hagree).
  - assert (∀ key, key ≠ "description" →
              delete "description" data !! key = data !! key) as Hagree
      by (intros key Hne; by apply lookup_delete_ne).
    rewrite (projectHost_agree data _ "description" Hagree h (Groups h) (Templates h));
      try done.
    + rewrite notesOf_not_string; [by destruct h |].
      intros s. by rewrite lookup_delete_eq.
    + by rewrite (groupsOf_agree data _ "description" Hagree).
    + by rewrite (templatesOf_agree data _ "description" Hagree).
Qed.

(** X10 on the sample host [db01]: with its description kept, replaced
    by a number, and removed. *)
Lemma host_notes_and_unset_fields_witness :
  Notes Cases.db01_host = getStringFromMap Scenario.db01 "description"
  ∧ Interfaces Cases.db01_host = []
  ∧ XMLName Cases.db01_host = {| Space := ""; Local := "" |}
  ∧ (∀ v, (∀ s, v ≠ JStr s) →
          projectHost (JObj (<["description" := v]> Scenario.db01))
          = Some (withNotes "" Cases.db01_host))
  ∧ projectHost (JObj (delete "description" Scenario.db01))
    = Some (withNotes "" Cases.db01_host).
Proof.
  apply (host_notes_and_unset_fields Scenario.db01 Cases.db01_host).
  vm_compute. reflexivity.
Defined.

Lemma groupsOf_not_a_list (data : gmap string json) :
  (∀ records, data !! "groups" ≠ Some (JArr records)) → groupsOf data = Some [].
Proof.
  intros H. unfold groupsOf, index.
  destruct (data !! "groups") as [[| | | |records|]|]; try done.
  by destruct (H records).
Qed.

Lemma templatesOf_not_a_list (data : gmap string json) :
  (∀ records, data !! "parentTemplates" ≠ Some (JArr records)) →
  templatesOf data = Some [].
Proof.
  intros H. unfold templatesOf, index.
  destruct (data !! "parentTemplates") as [[| | | |records|]|]; try done.
  by destruct (H records).
Qed.

(** X11: the groups of a projected Host are the records under [groups],
    one Group per record in the same order, each with the [groupid] and
    [name] strings of its record; likewise the templates and the records
    under [parentTemplates].  Both keys are optional: replacing the
    [groups] (the [parentTemplates]) of a projected record by anything
    that is not a list, or removing the key, still gives a Host, the same
    one without groups (without templates), and nothing panics. *)
Theorem host_groups_and_templates (data : gmap string json) (h : Host) :
  projectHost (JObj data) = Some h →
  (∀ records, data !! "groups" = Some (JArr records) →
     Forall2 (λ record g, ∃ m, record = JObj m
                 ∧ m !! "groupid" = Some (JStr (GroupID g))
                 ∧ m !! "name" = Some (JStr (Group_Name g)))
             records (Groups h))
  ∧ ((∀ records, data !! "groups" ≠ Some (JArr records)) → Groups h = [])
  ∧ (∀ records, data !! "parentTemplates" = Some (JArr records) →
       Forall2 (λ record t, ∃ m, record = JObj m
                   ∧ m !! "templateid" = Some (JStr (TemplateID t))
                   ∧ m !! "name" = Some (JStr (Template_Name t)))
               records (Templates h))
  ∧ ((∀ records, data !! "parentTemplates" ≠ Some (JArr records)) →
     Templates h = [])
  ∧ (∀ v, (∀ records, v ≠ JArr records) →
          projectHost (JObj (<["groups" := v]> data)) = Some (withGroups [] h))
  ∧ projectHost (JObj (delete "groups" data)) = Some (withGroups [] h)
  ∧ (∀ v, (∀ records, v ≠ JArr records) →
          projectHost (JObj (<["parentTemplates" := v]> data))
          = Some (withTemplates [] h))
  ∧ projectHost (JObj (delete "parentTemplates" data)) = Some (withTemplates [] h).
Proof.
  intros H. destruct (projectHost_lists _ _ H) as [Hg Ht].
  pose proof (projectHost_notes _ _ H) as Hn.
  split; [| split; [| split; [| split; [| split; [| split; [| split]]]]]].
  - intros records Hrec. unfold groupsOf, index in Hg. rewrite Hrec in Hg.
    simpl in Hg. apply mapM_projected in Hg.
    eapply Forall2_impl; [exact Hg |]. intros record g. apply projectGroup_fields.
  - intros Hnone. rewrite (groupsOf_not_a_list _ Hnone) in Hg. by injection Hg.
  - intros records Hrec. unfold templatesOf, index in Ht. rewrite Hrec in Ht.
    simpl in Ht. apply mapM_projected in Ht.
    eapply Forall2_impl; [exact Ht |]. intros record t. apply projectTemplate_fields.
  - intros Hnone. rewrite (templatesOf_not_a_list _ Hnone) in Ht. by injection Ht.
  - intros v Hv.
    assert (∀ key, key ≠ "groups" → <["groups" := v]> data !! key = data !! key)
      as Hagree by (intros key Hne; by apply lookup_insert_ne).
    rewrite (projectHost_agree data _ "groups" Hagree h [] (Templates h)); try done.
    + rewrite (notesOf_agree data _ "groups" Hagree), <- Hn by done. by destruct h.
    + apply groupsOf_not_a_list. intros records. rewrite lookup_insert_eq.
      intros [= ->]. by destruct (Hv records).
    + by rewrite (templatesOf_agree data _ "groups" Hagree).
  - assert (∀ key, key ≠ "groups" → delete "groups" data !! key = data !! key)
      as Hagree by (intros key Hne; by apply lookup_delete_ne).
    rewrite (projectHost_agree data _ "groups" Hagree h [] (Templates h)); try done.
    + rewrite (notesOf_agree data _ "groups" Hagree), <- Hn by done. by destruct h.
    + apply groupsOf_not_a_list. intros records. by rewrite lookup_delete_eq.
    + by rewrite (templatesOf_agree data _ "groups" Hagree).
  - intros v Hv.
    assert (∀ key, key ≠ "parentTemplates" →
              <["parentTemplates" := v]> data !! key = data !! key)
      as Hagree by (intros key Hne; by apply lookup_insert_ne).
    rewrite (projectHost_agree data _ "parentTemplates" Hagree h (Groups h) []);
      try done.
    + rewrite (notesOf_agree data _ "parentTemplates" Hagree), <- Hn by done.
      by destruct h.
    + by rewrite (groupsOf_agree data _ "parentTemplates" Hagree).
    + apply templatesOf_not_a_list. intros records. rewrite lookup_insert_eq.
      intros [= ->]. by destruct (Hv records).
  - assert (∀ key, key ≠ "parentTemplates" →
              delete "parentTemplates" data !! key = data !! key)
      as Hagree by (intros key Hne; by apply lookup_delete_ne).
    rewrite (projectHost_agree data _ "parentTemplates" Hagree h (Groups h) []);
      try done.
    + rewrite (notesOf_agree data _ "parentTemplates" Hagree), <- Hn by done.
      by destruct h.
    + by rewrite (groupsOf_agree data _ "parentTemplates" Hagree).
    + apply templatesOf_not_a_list. intros records. by rewrite lookup_delete_eq.
Qed.

(** X11 on the sample host [db01], which has one group and no
    [parentTemplates] key: its group, and the Host it gives when the
    groups are replaced by a string or removed. *)
Lemma host_groups_and_templates_witness :
  Forall2 (λ record g, ∃ m, record = JObj m
              ∧ m !! "groupid" = Some (JStr (GroupID g))
              ∧ m !! "name" = Some (JStr (Group_Name g)))
          [JObj {[ "groupid" := JStr "4"; "name" := JStr "Databases" ]}]
          (Groups Cases.db01_host)
  ∧ Templates Cases.db01_host = []
  ∧ projectHost (JObj (<["groups" := JStr "none"]> Scenario.db01))
    = Some (withGroups [] Cases.db01_host)
  ∧ projectHost (JObj (delete "groups" Scenario.db01))
    = Some (withGroups [] Cases.db01_host).
Proof.
  assert (projectHost (JObj Scenario.db01) = Some Cases.db01_host) as H
    by (vm_compute; reflexivity).
  destruct (host_groups_and_templates Scenario.db01 Cases.db01_host H)
    as (Hg & _ & _ & Ht & Hgv & Hgd & _ & _).
  split; [| split; [| split]].
  - apply Hg. vm_compute. reflexivity.
  - apply Ht. intros records. vm_compute. discriminate.
  - apply Hgv. intros records. discriminate.
  - exact Hgd.
Defined.

(** X12: an item record is projected to a Metric exactly when it is a map
    whose [itemid], [name], [key_] and [lastvalue] are all strings, and
    these are the four fields of the Metric; any other record panics. *)
Theorem metric_projection_needs_four_strings (item : json) (m : Metric) :
  projectMetric item = Some m
  ↔ ∃ data, item = JObj data
            ∧ data !! "itemid" = Some (JStr (ItemID m))
            ∧ data !! "name" = Some (JStr (Metric_Name m))
            ∧ data !! "key_" = Some (JStr (Key m))
            ∧ data !! "lastvalue" = Some (JStr (Value m)).
Proof.
  split.
  - unfold projectMetric. destruct item as [| | | | |data]; try done. simpl.
    destruct (as_string (index data "itemid")) eqn:H1; [simpl | done].
    destruct (as_string (index data "name")) eqn:H2; [simpl | done].
    destruct (as_string (index data "key_")) eqn:H3; [simpl | done].
    destruct (as_string (index data "lastvalue")) eqn:H4; [simpl | done].
    intros [= <-]. exists data. by rewrite <- !as_string_index.
  - intros (data & -> & H1 & H2 & H3 & H4).
    apply as_string_index in H1, H2, H3, H4.
    unfold projectMetric. simpl. rewrite H1, H2, H3, H4. simpl. by destruct m.
Qed.

(** X12 on the sample item [cpu_load]. *)
Lemma metric_projection_needs_four_strings_witness :
  projectMetric (JObj Scenario.cpu_load)
  = Some {| ItemID := "23296"; Metric_Name := "CPU load";
            Key := "system.cpu.load"; Value := "0.25" |}.
Proof.
  apply (proj2 (metric_projection_needs_four_strings (JObj Scenario.cpu_load)
                  {| ItemID := "23296"; Metric_Name := "CPU load";
                     Key := "system.cpu.load"; Value := "0.25" |})).
  exists Scenario.cpu_load. repeat split; vm_compute; reflexivity.
Defined.

(** ** More on the metric fetcher *)

(** X13: when the metric reply decodes to a list whose records are all
    projected, and the encoder and the disk accept the result, the metric
    fetcher writes the encoded list of Metrics (in the order of the
    reply) to [metrics.json] of the host directory, prints its success
    line and returns; this holds for the empty list too. *)
Theorem metric_list_is_written
    (E : Environment) (token server hostDir hostID : string) (w : World)
    (result : ZabbixResponse) (items : list json) (metrics : list Metric)
    (jsonData : string) :
  decoded E (sent w) (itemGetRequest server token hostID) result →
  Result result = JArr items →
  mapM projectMetric items = Some metrics →
  json_MarshalIndent E (OfMetrics metrics) = GoOk jsonData →
  os_WriteFile_err E (with_sent (itemGetRequest server token hostID) w)
    (hostDir +:+ "/metrics.json") jsonData = None →
  exportMetricsForHost E token server hostDir hostID w
  = (Done (),
     with_printed ("Метрики успешно экспортированы для хоста " +:+ hostID
                   +:+ " в " +:+ hostDir +:+ "/metrics.json")
       (with_file (hostDir +:+ "/metrics.json") jsonData
          (with_sent (itemGetRequest server token hostID) w))).
Proof.
  intros (body & Hpost & Hdec) Hres Hproj Henc Hwrite.
  unfold exportMetricsForHost. run. rewrite Hpost, Hdec, Hres. simpl.
  rewrite Hproj. unfold saveToJSON. rewrite Henc. run. by rewrite Hwrite.
Qed.

(** X13 on a sample server whose item reply is the empty list. *)
Lemma metric_list_is_written_witness :
  exportMetricsForHost
    (Cases.env (Response Scenario.body_token) (Response Scenario.body_one_host)
       (Response Scenario.body_empty) (Response Scenario.body_triggers)
       Cases.writable)
    Scenario.token Scenario.url "/srv/export/hosts/web01" "10084" Scenario.fresh
  = (Done (),
     with_printed ("Метрики успешно экспортированы для хоста " +:+ "10084"
                   +:+ " в " +:+ "/srv/export/hosts/web01" +:+ "/metrics.json")
       (with_file ("/srv/export/hosts/web01" +:+ "/metrics.json") "[]"
          (with_sent (itemGetRequest Scenario.url Scenario.token "10084")
             Scenario.fresh))).
Proof.
  apply (metric_list_is_written
           (Cases.env (Response Scenario.body_token) (Response Scenario.body_one_host)
              (Response Scenario.body_empty) (Response Scenario.body_triggers)
              Cases.writable)
           Scenario.token Scenario.url "/srv/export/hosts/web01" "10084"
           Scenario.fresh (Scenario.envelope (JArr [])) [] [] "[]").
  - exists Scenario.body_empty. split; vm_compute; reflexivity.
  - reflexivity.
  - reflexivity.
  - reflexivity.
  - reflexivity.
Defined.

Lemma mapM_none_of_member {A} (project : json → option A) (l : list json) (x : json) :
  x ∈ l → project x = None → mapM project l = None.
Proof.
  intros Hx Hnone. destruct (mapM project l) as [k|] eqn:Hk; [| done].
  assert (is_Some (mapM project l)) as Hsome by (rewrite Hk; eauto).
  apply mapM_is_Some in Hsome. rewrite Forall_forall in Hsome.
  specialize (Hsome x Hx). simpl in Hsome. rewrite Hnone in Hsome.
  by destruct Hsome.
Qed.

(** X14: one item record that is not projected (a field missing or not
    a string) makes the metric fetcher panic: no [metrics.json] is
    written, not even for the well-formed records of the same reply. *)
Theorem malformed_metric_panics
    (E : Environment) (token server hostDir hostID : string) (w : World)
    (result : ZabbixResponse) (items : list json) (item : json) :
  decoded E (sent w) (itemGetRequest server token hostID) result →
  Result result = JArr items →
  item ∈ items →
  projectMetric item = None →
  exportMetricsForHost E token server hostDir hostID w
  = (Panicked, with_sent (itemGetRequest server token hostID) w).
Proof.
  intros (body & Hpost & Hdec) Hres Hitem Hbad.
  unfold exportMetricsForHost. run. rewrite Hpost, Hdec, Hres. simpl.
  by rewrite (mapM_none_of_member projectMetric items item Hitem Hbad).
Qed.

(** X14 on a sample server whose second item has no [lastvalue]. *)
Lemma malformed_metric_panics_witness :
  exportMetricsForHost
    (Cases.env (Response Scenario.body_token) (Response Scenario.body_one_host)
       (Response Cases.body_item_without_value) (Response Scenario.body_triggers)
       Cases.writable)
    Scenario.token Scenario.url "/srv/export/hosts/web01" "10084" Scenario.fresh
  = (Panicked,
     with_sent (itemGetRequest Scenario.url Scenario.token "10084") Scenario.fresh).
Proof.
  apply (malformed_metric_panics
           (Cases.env (Response Scenario.body_token) (Response Scenario.body_one_host)
              (Response Cases.body_item_without_value)
              (Response Scenario.body_triggers) Cases.writable)
           Scenario.token Scenario.url "/srv/export/hosts/web01" "10084"
           Scenario.fresh
           (Scenario.envelope (JArr [JObj Scenario.cpu_load; JObj Cases.free_memory]))
           [JObj Scenario.cpu_load; JObj Cases.free_memory] (JObj Cases.free_memory)).
  - exists Cases.body_item_without_value. split; vm_compute; reflexivity.
  - reflexivity.
  - rewrite !elem_of_cons. tauto.
  - vm_compute. reflexivity.
Defined.

(** ** More on the trigger fetcher *)

Lemma saveToJSON_printed (E : Environment) (filename : string) (data : payload)
    (w : World) :
  printed (snd (saveToJSON E filename data w)) = printed w.
Proof.
  unfold saveToJSON. destruct (json_MarshalIndent E data) as [jsonData|err]; run.
  - by destruct (os_WriteFile_err E w filename jsonData).
  - done.
Qed.

(** X15: when the trigger reply decodes to a list of maps, whatever their
    fields, and the encoder and the disk accept the result, the trigger
    fetcher prints the raw reply, writes the encoded list of Triggers read
    defensively from the maps (in the order of the reply) to
    [triggers.json], prints its success line and returns. *)
Theorem trigger_list_is_written
    (E : Environment) (token server hostDir hostID : string) (w : World)
    (body : string) (result : ZabbixResponse) (records : list (gmap string json))
    (jsonData : string) :
  client_Post E (sent w) (triggerGetRequest server token hostID) = Response body →
  json_Unmarshal E body = GoOk result →
  Result result = JArr (JObj <$> records) →
  json_MarshalIndent E (OfTriggers (triggerOfMap <$> records)) = GoOk jsonData →
  os_WriteFile_err E
    (with_printed ("Ответ от API для триггеров хоста " +:+ hostID +:+ ": " +:+ body)
       (with_sent (triggerGetRequest server token hostID) w))
    (hostDir +:+ "/triggers.json") jsonData = None →
  exportTriggersForHost E token server hostDir hostID w
  = (Done (),
     with_printed ("Триггеры успешно экспортированы для хоста " +:+ hostID
                   +:+ " в " +:+ hostDir +:+ "/triggers.json")
       (with_file (hostDir +:+ "/triggers.json") jsonData
          (with_printed ("Ответ от API для триггеров хоста " +:+ hostID
                         +:+ ": " +:+ body)
             (with_sent (triggerGetRequest server token hostID) w)))).
Proof.
  intros Hpost Hdec Hres Henc Hwrite.
  unfold exportTriggersForHost. run. rewrite Hpost. simpl.
  rewrite Hdec, Hres. simpl. rewrite projectTrigger_all.
  unfold saveToJSON. rewrite Henc. run. by rewrite Hwrite.
Qed.

(** X15 on the sample trigger [high_load], whose priority is a number and
    whose status is missing. *)
Lemma trigger_list_is_written_witness :
  exportTriggersForHost Cases.healthy
    Scenario.token Scenario.url "/srv/export/hosts/web01" "10084" Scenario.fresh
  = (Done (),
     with_printed ("Триггеры успешно экспортированы для хоста " +:+ "10084"
                   +:+ " в " +:+ "/srv/export/hosts/web01" +:+ "/triggers.json")
       (with_file ("/srv/export/hosts/web01" +:+ "/triggers.json") "[13491]"
          (with_printed ("Ответ от API для триггеров хоста " +:+ "10084"
                         +:+ ": " +:+ Scenario.body_triggers)
             (with_sent (triggerGetRequest Scenario.url Scenario.token "10084")
                Scenario.fresh)))).
Proof.
  apply (trigger_list_is_written Cases.healthy
           Scenario.token Scenario.url "/srv/export/hosts/web01" "10084"
           Scenario.fresh Scenario.body_triggers
           (Scenario.envelope (JArr [JObj Scenario.high_load]))
           [Scenario.high_load] "[13491]").
  - reflexivity.
  - vm_compute. reflexivity.
  - reflexivity.
  - vm_compute. reflexivity.
  - reflexivity.
Defined.

(** X16: the defensive reading stops at the fields.  When the trigger
    reply decodes to a result that is neither null nor a list, or to a
    list with an element that is not a map, the trigger fetcher panics
    after printing the raw reply; no [triggers.json] is written. *)
Theorem trigger_result_not_a_list_of_maps_panics
    (E : Environment) (token server hostDir hostID : string) (w : World)
    (body : string) (result : ZabbixResponse) :
  client_Post E (sent w) (triggerGetRequest server token hostID) = Response body →
  json_Unmarshal E body = GoOk result →
  Result result ≠ JNull →
  ((∀ items, Result result ≠ JArr items)
   ∨ ∃ items item, Result result = JArr items ∧ item ∈ items
                   ∧ ∀ m, item ≠ JObj m) →
  exportTriggersForHost E token server hostDir hostID w
  = (Panicked,
     with_printed ("Ответ от API для триггеров хоста " +:+ hostID +:+ ": " +:+ body)
       (with_sent (triggerGetRequest server token hostID) w)).
Proof.
  intros Hpost Hdec Hnn Hbad.
  unfold exportTriggersForHost. run. rewrite Hpost. simpl. rewrite Hdec.
  destruct Hbad as [Hnl | (items & item & Hres & Hitem & Hmap)].
  - destruct (Result result) as [| | | |items|]; try done. by destruct (Hnl items).
  - rewrite Hres. simpl.
    assert (projectTrigger item = None) as Hnone.
    { destruct item as [| | | | |m]; try done. by destruct (Hmap m). }
    by rewrite (mapM_none_of_member projectTrigger items item Hitem Hnone).
Qed.

(** X16 on a sample server whose trigger reply is a list of identifiers. *)
Lemma trigger_result_not_a_list_of_maps_panics_witness :
  exportTriggersForHost
    (Cases.env (Response Scenario.body_token) (Response Scenario.body_one_host)
       (Response Scenario.body_items) (Response Cases.body_trigger_ids)
       Cases.writable)
    Scenario.token Scenario.url "/srv/export/hosts/web01" "10084" Scenario.fresh
  = (Panicked,
     with_printed ("Ответ от API для триггеров хоста " +:+ "10084" +:+ ": "
                   +:+ Cases.body_trigger_ids)
       (with_sent (triggerGetRequest Scenario.url Scenario.token "10084")
          Scenario.fresh)).
Proof.
  apply (trigger_result_not_a_list_of_maps_panics
           (Cases.env (Response Scenario.body_token) (Response Scenario.body_one_host)
              (Response Scenario.body_items) (Response Cases.body_trigger_ids)
              Cases.writable)
           Scenario.token Scenario.url "/srv/export/hosts/web01" "10084"
           Scenario.fresh Cases.body_trigger_ids
           (Scenario.envelope (JArr [JStr "13491"]))).
  - reflexivity.
  - vm_compute. reflexivity.
  - discriminate.
  - right. exists [JStr "13491"], (JStr "13491").
    split; [reflexivity |]. split; [apply elem_of_cons; by left |].
    intros m. discriminate.
Defined.

(** X17: whenever the trigger call gets a response, its raw body is the
    first line the trigger fetcher prints, before decoding and however
    the call ends; when the call fails at transport nothing is printed. *)
Theorem trigger_reply_is_printed_first
    (E : Environment) (token server hostDir hostID : string) (w : World) :
  (∀ body,
     client_Post E (sent w) (triggerGetRequest server token hostID) = Response body →
     ∃ rest,
       printed (snd (exportTriggersForHost E token server hostDir hostID w))
       = printed w
         ++ ("Ответ от API для триггеров хоста " +:+ hostID +:+ ": " +:+ body) :: rest)
  ∧ (∀ err,
       client_Post E (sent w) (triggerGetRequest server token hostID)
       = TransportError err →
       printed (snd (exportTriggersForHost E token server hostDir hostID w))
       = printed w).
Proof.
  split.
  - intros body Hpost. unfold exportTriggersForHost. run. rewrite Hpost. simpl.
    destruct (json_Unmarshal E body) as [result|err]; [| by exists []].
    destruct (is_nil (Result result)); [by exists [] |].
    destruct (as_slice (Result result)) as [items|]; [| by exists []].
    destruct (mapM projectTrigger items) as [triggers|]; [| by exists []].
    match goal with
    | |- context [saveToJSON E ?f ?d ?w0] =>
        pose proof (saveToJSON_printed E f d w0) as Hp;
        destruct (saveToJSON E f d w0) as [[[]| |] w1]; simpl in *; rewrite Hp
    end.
    + eexists [_]. by rewrite <- app_assoc.
    + by exists [].
    + by exists [].
  - intros err Hpost. unfold exportTriggersForHost. run. by rewrite Hpost.
Qed.

(** X17 on a sample server whose trigger reply is not JSON. *)
Lemma trigger_reply_is_printed_first_witness :
  ∃ rest,
    printed (snd (exportTriggersForHost
                    (Cases.env (Response Scenario.body_token)
                       (Response Scenario.body_one_host)
                       (Response Scenario.body_items)
                       (Response "<html>502</html>") Cases.writable)
                    Scenario.token Scenario.url "/srv/export/hosts/web01" "10084"
                    Scenario.fresh))
    = printed Scenario.fresh
      ++ ("Ответ от API для триггеров хоста " +:+ "10084" +:+ ": "
          +:+ "<html>502</html>") :: rest.
Proof.
  apply (proj1 (trigger_reply_is_printed_first
                  (Cases.env (Response Scenario.body_token)
                     (Response Scenario.body_one_host)
                     (Response Scenario.body_items)
                     (Response "<html>502</html>") Cases.writable)
                  Scenario.token Scenario.url "/srv/export/hosts/web01" "10084"
                  Scenario.fresh)).
  reflexivity.
Defined.

(** ** What the files hold *)

Lemma saveToXML_inv (E : Environment) (filename : string) (data : payload)
    (w w' : World) :
  saveToXML E filename data w = (Done (), w') →
  ∃ xmlData, xml_MarshalIndent E data = GoOk xmlData
             ∧ w' = with_file filename (xml_Header +:+ xmlData) w.
Proof.
  unfold saveToXML. destruct (xml_MarshalIndent E data) as [xmlData|err]; run.
  - destruct (os_WriteFile_err E w filename (xml_Header +:+ xmlData)); [done |].
    intros [= <-]. eauto.
  - done.
Qed.

Lemma saveToJSON_inv (E : Environment) (filename : string) (data : payload)
    (w w' : World) :
  saveToJSON E filename data w = (Done (), w') →
  ∃ jsonData, json_MarshalIndent E data = GoOk jsonData
              ∧ w' = with_file filename jsonData w.
Proof.
  unfold saveToJSON. destruct (json_MarshalIndent E data) as [jsonData|err]; run.
  - destruct (os_WriteFile_err E w filename jsonData); [done |].
    intros [= <-]. eauto.
  - done.
Qed.

Lemma exportMetricsForHost_files (E : Environment)
    (token server hostDir hostID : string) (w w' : World) :
  exportMetricsForHost E token server hostDir hostID w = (Done (), w') →
  (∀ result, decoded E (sent w) (itemGetRequest server token hostID) result →
     ∃ items metrics jsonData,
       Result result = JArr items
       ∧ mapM projectMetric items = Some metrics
       ∧ json_MarshalIndent E (OfMetrics metrics) = GoOk jsonData
       ∧ files w' !! (hostDir +:+ "/metrics.json") = Some jsonData)
  ∧ (∀ path, path ≠ hostDir +:+ "/metrics.json" → files w' !! path = files w !! path).
Proof.
  unfold exportMetricsForHost. intros H.
  apply bind_done_inv in H as (resp & w1 & Hpost & H).
  unfold post in Hpost. injection Hpost as <- <-.
  destruct (client_Post E (sent w) (itemGetRequest server token hostID))
    as [err|body] eqn:Hreply.
  - injection H as <-. split; [| done].
    intros result (body & Hbody & _). congruence.
  - destruct (json_Unmarshal E body) as [result|err] eqn:Hdec.
    + apply bind_done_inv in H as (items & w2 & Hitems & H).
      apply bind_done_inv in H as (metrics & w3 & Hmetrics & H).
      apply bind_done_inv in H as ([] & w4 & Hsave & H).
      unfold must in Hitems, Hmetrics.
      destruct (as_slice (Result result)) as [items'|] eqn:Hslice; [| done].
      injection Hitems as <- <-.
      destruct (mapM projectMetric items') as [metrics'|] eqn:Hproj; [| done].
      injection Hmetrics as <- <-.
      apply saveToJSON_inv in Hsave as (jsonData & Henc & ->).
      injection H as <-. simpl. split.
      * intros result' (body' & Hbody & Hdec').
        assert (result' = result) as -> by congruence.
        exists items', metrics', jsonData.
        split; [by destruct (Result result); simplify_eq/= |].
        split; [done |]. split; [done |]. apply lookup_insert_eq.
      * intros path Hne. by apply lookup_insert_ne.
    + injection H as <-. split; [| done].
      intros result (body' & Hbody & Hdec'). congruence.
Qed.

Lemma exportTriggersForHost_files (E : Environment)
    (token server hostDir hostID : string) (w w' : World) :
  exportTriggersForHost E token server hostDir hostID w = (Done (), w') →
  (∀ result, decoded E (sent w) (triggerGetRequest server token hostID) result →
     Result result ≠ JNull →
     ∃ items triggers jsonData,
       Result result = JArr items
       ∧ mapM projectTrigger items = Some triggers
       ∧ json_MarshalIndent E (OfTriggers triggers) = GoOk jsonData
       ∧ files w' !! (hostDir +:+ "/triggers.json") = Some jsonData)
  ∧ (∀ path, path ≠ hostDir +:+ "/triggers.json" → files w' !! path = files w !! path).
Proof.
  unfold exportTriggersForHost. intros H.
  apply bind_done_inv in H as (resp & w1 & Hpost & H).
  unfold post in Hpost. injection Hpost as <- <-.
  destruct (client_Post E (sent w) (triggerGetRequest server token hostID))
    as [err|body] eqn:Hreply.
  - injection H as <-. split; [| done].
    intros result (body & Hbody & _). congruence.
  - apply bind_done_inv in H as ([] & w2 & Hprint & H).
    injection Hprint as <-.
    destruct (json_Unmarshal E body) as [result|err] eqn:Hdec.
    + destruct (is_nil (Result result)) eqn:Hnil.
      * injection H as <-. split; [| done].
        intros result' (body' & Hbody & Hdec') Hnn.
        assert (result' = result) as -> by congruence.
        by destruct (Result result).
      * apply bind_done_inv in H as (items & w3 & Hitems & H).
        apply bind_done_inv in H as (triggers & w4 & Htriggers & H).
        apply bind_done_inv in H as ([] & w5 & Hsave & H).
        unfold must in Hitems, Htriggers.
        destruct (as_slice (Result result)) as [items'|] eqn:Hslice; [| done].
        injection Hitems as <- <-.
        destruct (mapM projectTrigger items') as [triggers'|] eqn:Hproj; [| done].
        injection Htriggers as <- <-.
        apply saveToJSON_inv in Hsave as (jsonData & Henc & ->).
        injection H as <-. simpl. split.
        -- intros result' (body' & Hbody & Hdec') _.
           assert (result' = result) as -> by congruence.
           exists items', triggers', jsonData.
           split; [by destruct (Result result); simplify_eq/= |].
           split; [done |]. split; [done |]. apply lookup_insert_eq.
        -- intros path Hne. by apply lookup_insert_ne.
    + injection H as <-. split; [| done].
      intros result (body' & Hbody & Hdec'). congruence.
Qed.

Lemma hostFiles_distinct (hostDir a b : string) :
  a ≠ b → hostDir +:+ a ≠ hostDir +:+ b.
Proof. intros Hne Heq. by apply (String.app_inj hostDir) in Heq. Qed.

(** X18: what one iteration of the host loop leaves on disk when it
    returns.  [host.xml] holds [xml.Header] followed by the encoding of
    the projected Host; [metrics.json] holds the encoding of the projected
    metric list whenever the metric reply decoded; [triggers.json] holds
    the encoding of the projected trigger list whenever the trigger reply
    decoded to a result that is not null, whatever these files held
    before; and no file other than these three is touched. *)
Theorem host_files_hold_the_encodings
    (E : Environment) (token server exportDir : string) (item : json)
    (w w' : World) :
  exportHost E token server exportDir item w = (Done (), w') →
  ∃ h xmlData,
    projectHost item = Some h
    ∧ xml_MarshalIndent E (OfHost h) = GoOk xmlData
    ∧ files w' !! (hostDirOf exportDir (HostName h) +:+ "/host.xml")
      = Some (xml_Header +:+ xmlData)
    ∧ (∀ result,
         decoded E (sent w) (itemGetRequest server token (HostID h)) result →
         ∃ items metrics jsonData,
           Result result = JArr items
           ∧ mapM projectMetric items = Some metrics
           ∧ json_MarshalIndent E (OfMetrics metrics) = GoOk jsonData
           ∧ files w' !! (hostDirOf exportDir (HostName h) +:+ "/metrics.json")
             = Some jsonData)
    ∧ (∀ result,
         decoded E (sent w ++ [itemGetRequest server token (HostID h)])
                 (triggerGetRequest server token (HostID h)) result →
         Result result ≠ JNull →
         ∃ items triggers jsonData,
           Result result = JArr items
           ∧ mapM projectTrigger items = Some triggers
           ∧ json_MarshalIndent E (OfTriggers triggers) = GoOk jsonData
           ∧ files w' !! (hostDirOf exportDir (HostName h) +:+ "/triggers.json")
             = Some jsonData)
    ∧ (∀ path, path ∉ hostFiles (hostDirOf exportDir (HostName h)) →
               files w' !! path = files w !! path).
Proof.
  unfold exportHost. intros H.
  apply bind_done_inv in H as (h & w1 & Hproj & H).
  unfold must in Hproj. destruct (projectHost item) as [h'|]; [| done].
  injection Hproj as <- <-.
  apply bind_done_inv in H as ([] & w2 & Hmk & H). injection Hmk as <-.
  apply bind_done_inv in H as ([] & w3 & Hxml & H).
  apply saveToXML_inv in Hxml as (xmlData & Henc & ->).
  apply bind_done_inv in H as ([] & w4 & Hmetrics & Htriggers).
  pose proof (exportMetricsForHost_done _ _ _ _ _ _ _ Hmetrics) as (Hs4 & _).
  apply exportMetricsForHost_files in Hmetrics as (Hm & Hframe4).
  apply exportTriggersForHost_files in Htriggers as (Ht & Hframe5).
  simpl in Hs4, Hm, Hframe4.
  set (dir := hostDirOf exportDir (HostName h')) in *.
  exists h', xmlData. split; [done |]. split; [exact Henc |].
  split; [| split; [| split]].
  - rewrite Hframe5 by (by apply hostFiles_distinct).
    rewrite Hframe4 by (by apply hostFiles_distinct).
    apply lookup_insert_eq.
  - intros result Hdec.
    destruct (Hm result Hdec) as (items & metrics & jsonData & H1 & H2 & H3 & H4).
    exists items, metrics, jsonData. repeat split; try done.
    by rewrite Hframe5 by (by apply hostFiles_distinct).
  - intros result Hdec Hnn. apply (Ht result); [| done]. by rewrite Hs4.
  - intros path Hpath. unfold hostFiles in Hpath.
    rewrite !elem_of_cons, elem_of_nil in Hpath.
    rewrite Hframe5 by tauto. rewrite Hframe4 by tauto.
    apply lookup_insert_ne. intros Heq. apply Hpath. by left.
Qed.

(** X18 on the sample host [web01] of the healthy server, in a directory
    that already holds an older [host.xml]. *)
Lemma host_files_hold_the_encodings_witness :
  ∃ h xmlData,
    projectHost (JObj Scenario.web01) = Some h
    ∧ xml_MarshalIndent Cases.healthy (OfHost h) = GoOk xmlData
    ∧ files (snd (exportHost Cases.healthy Scenario.token Scenario.url Scenario.root
                    (JObj Scenario.web01)
                    (with_file "/srv/export/hosts/web01/host.xml" "old"
                       Scenario.fresh)))
        !! (hostDirOf Scenario.root (HostName h) +:+ "/host.xml")
      = Some (xml_Header +:+ xmlData)
    ∧ (∀ result,
         decoded Cases.healthy [] (itemGetRequest Scenario.url Scenario.token (HostID h))
           result →
         ∃ items metrics jsonData,
           Result result = JArr items
           ∧ mapM projectMetric items = Some metrics
           ∧ json_MarshalIndent Cases.healthy (OfMetrics metrics) = GoOk jsonData
           ∧ files (snd (exportHost Cases.healthy Scenario.token Scenario.url
                           Scenario.root (JObj Scenario.web01)
                           (with_file "/srv/export/hosts/web01/host.xml" "old"
                              Scenario.fresh)))
               !! (hostDirOf Scenario.root (HostName h) +:+ "/metrics.json")
             = Some jsonData)
    ∧ (∀ result,
         decoded Cases.healthy
           ([] ++ [itemGetRequest Scenario.url Scenario.token (HostID h)])
           (triggerGetRequest Scenario.url Scenario.token (HostID h)) result →
         Result result ≠ JNull →
         ∃ items triggers jsonData,
           Result result = JArr items
           ∧ mapM projectTrigger items = Some triggers
           ∧ json_MarshalIndent Cases.healthy (OfTriggers triggers) = GoOk jsonData
           ∧ files (snd (exportHost Cases.healthy Scenario.token Scenario.url
                           Scenario.root (JObj Scenario.web01)
                           (with_file "/srv/export/hosts/web01/host.xml" "old"
                              Scenario.fresh)))
               !! (hostDirOf Scenario.root (HostName h) +:+ "/triggers.json")
             = Some jsonData)
    ∧ (∀ path, path ∉ hostFiles (hostDirOf Scenario.root (HostName h)) →
               files (snd (exportHost Cases.healthy Scenario.token Scenario.url
                             Scenario.root (JObj Scenario.web01)
                             (with_file "/srv/export/hosts/web01/host.xml" "old"
                                Scenario.fresh))) !! path
               = files (with_file "/srv/export/hosts/web01/host.xml" "old"
                          Scenario.fresh) !! path).
Proof.
  apply (host_files_hold_the_encodings Cases.healthy Scenario.token Scenario.url
           Scenario.root (JObj Scenario.web01)
           (with_file "/srv/export/hosts/web01/host.xml" "old" Scenario.fresh)).
  vm_compute. reflexivity.
Defined.

(** ** The requests of a run *)

Lemma hostRequests_addressed (server token : string) (hosts : list Host) :
  Forall (λ req, req_url req = server ∧ req_auth req = Some token)
         (hosts ≫= hostRequests server token).
Proof.
  induction hosts as [|h hosts IH]; [constructor |].
  rewrite bind_cons. apply Forall_app. split; [| exact IH].
  unfold hostRequests. by repeat constructor.
Qed.

(** X19: in a run of [main] that returns with N > 0 hosts, the requests
    made are the login, the host call, and then for each host in the
    order of the reply its item call followed by its trigger call, and
    nothing else.  All of them go to the configured server, and all but
    the login carry the token that the login returned. *)
Theorem requests_follow_host_order
    (E : Environment) (w w' : World) (authResult : ZabbixResponse) (token : string)
    (result : ZabbixResponse) (items : list json) :
  main E w = (Done (), w') →
  decoded E (sent w) (loginOf E) authResult →
  Result authResult = JStr token →
  decoded E (sent w ++ [loginOf E]) (hostGetRequest (serverOf E) token) result →
  Result result = JArr items →
  items ≠ [] →
  ∃ hosts,
    mapM projectHost items = Some hosts
    ∧ sent w' = sent w ++ [loginOf E; hostGetRequest (serverOf E) token]
                ++ (hosts ≫= hostRequests (serverOf E) token)
    ∧ Forall (λ req, req_url req = serverOf E
                     ∧ (req = loginOf E ∨ req_auth req = Some token))
             (drop (length (sent w)) (sent w')).
Proof.
  intros Hmain Hlogin Htoken Hhosts Hres Hne.
  destruct (main_done E w w' authResult token Hmain Hlogin Htoken) as (w1 & Henum & ->).
  destruct (exportHostsWithDetails_done E token (serverOf E) (exportDirOf E)
              _ w1 result items Henum Hhosts Hres Hne) as (w2 & Hloop & ->).
  apply for_range_exportHost_done in Hloop as (hosts & Hproj & Hs & _).
  simpl in Hs. exists hosts. split; [exact Hproj |].
  assert (sent w2 = sent w ++ [loginOf E; hostGetRequest (serverOf E) token]
                    ++ (hosts ≫= hostRequests (serverOf E) token)) as Hsent.
  { rewrite Hs. by rewrite <- !app_assoc. }
  split; [exact Hsent |]. simpl. rewrite Hsent, drop_app_length.
  simpl. constructor; [split; [done | by left] |].
  constructor; [split; [done | by right] |].
  eapply Forall_impl; [apply hostRequests_addressed |].
  intros req [Hurl Hauth]. split; [done | by right].
Qed.

(** X19 on the sample server with the two hosts [web01] and [db01]. *)
Lemma requests_follow_host_order_witness :
  ∃ hosts,
    mapM projectHost [JObj Scenario.web01; JObj Scenario.db01] = Some hosts
    ∧ sent (snd (main Scenario.healthy Scenario.fresh))
      = sent Scenario.fresh
        ++ [loginOf Scenario.healthy;
            hostGetRequest (serverOf Scenario.healthy) Scenario.token]
        ++ (hosts ≫= hostRequests (serverOf Scenario.healthy) Scenario.token)
    ∧ Forall (λ req, req_url req = serverOf Scenario.healthy
                     ∧ (req = loginOf Scenario.healthy
                        ∨ req_auth req = Some Scenario.token))
             (drop (length (sent Scenario.fresh))
                   (sent (snd (main Scenario.healthy Scenario.fresh)))).
Proof.
  apply (requests_follow_host_order Scenario.healthy Scenario.fresh
           (snd (main Scenario.healthy Scenario.fresh))
           (Scenario.envelope (JStr Scenario.token)) Scenario.token
           (Scenario.envelope (JArr [JObj Scenario.web01; JObj Scenario.db01]))
           [JObj Scenario.web01; JObj Scenario.db01]).
  - vm_compute. reflexivity.
  - exists Scenario.body_token. split; vm_compute; reflexivity.
  - reflexivity.
  - exists Scenario.body_two_hosts. split; vm_compute; reflexivity.
  - reflexivity.
  - discriminate.
Defined.

(** ** A run only adds to the world *)

Lemma extends_refl (w : World) : extends w w.
Proof. by repeat split. Qed.

Lemma extends_trans (w1 w2 w3 : World) :
  extends w1 w2 → extends w2 w3 → extends w1 w3.
Proof.
  intros (Hs & Hd & Hl & Hp & Hf) (Hs' & Hd' & Hl' & Hp' & Hf').
  repeat split; by etrans.
Qed.

Lemma monotone_ret {A} (a : A) : monotone (mret a).
Proof. intros w. apply extends_refl. Qed.

Lemma monotone_bind {A B} (m : M A) (k : A → M B) :
  monotone m → (∀ a, monotone (k a)) → monotone (m ≫= k).
Proof.
  intros Hm Hk w. unfold mbind, M_bind. specialize (Hm w).
  destruct (m w) as [[a| |] w1]; simpl in Hm; [| done | done].
  eapply extends_trans; [exact Hm | apply Hk].
Qed.

Lemma monotone_must {A} (o : option A) : monotone (must o).
Proof. intros w. unfold must. destruct o; apply extends_refl. Qed.

Lemma monotone_log_Print (line : string) : monotone (log_Print line).
Proof. intros w. repeat split; simpl; try done. by exists [line]. Qed.

Lemma monotone_log_Fatal {A} (line : string) : monotone (@log_Fatal A line).
Proof. intros w. repeat split; simpl; try done. by exists [line]. Qed.

Lemma monotone_fmt_Print (line : string) : monotone (fmt_Print line).
Proof. intros w. repeat split; simpl; try done. by exists [line]. Qed.

Lemma monotone_os_MkdirAll (path : string) : monotone (os_MkdirAll path).
Proof. intros w. repeat split; simpl; try done. by exists [path]. Qed.

Lemma monotone_post (E : Environment) (req : Request) : monotone (post E req).
Proof. intros w. repeat split; simpl; try done. by exists [req]. Qed.

Lemma monotone_os_WriteFile (E : Environment) (path content : string) :
  monotone (os_WriteFile E path content).
Proof.
  intros w. unfold os_WriteFile.
  destruct (os_WriteFile_err E w path content); [apply extends_refl |].
  repeat split; simpl; try done. rewrite dom_insert_L. set_solver.
Qed.

Lemma monotone_for_range {A} (body : A → M unit) (l : list A) :
  (∀ x, monotone (body x)) → monotone (for_range body l).
Proof.
  intros Hbody. induction l as [|x l IH]; [apply monotone_ret |].
  cbn [for_range]. apply monotone_bind; [apply Hbody | by intros _].
Qed.

Create HintDb mono discriminated.

#[local] Hint Resolve monotone_ret monotone_must monotone_log_Print
  monotone_log_Fatal monotone_fmt_Print monotone_os_MkdirAll monotone_post
  monotone_os_WriteFile : mono.

Local Ltac mono :=
  repeat first
    [ solve [eauto with mono]
    | apply monotone_bind; [| intros ?]
    | apply monotone_for_range; intros ?
    | match goal with
      | |- monotone (match ?x with _ => _ end) => destruct x
      end ].

Lemma monotone_saveToXML (E : Environment) (filename : string) (data : payload) :
  monotone (saveToXML E filename data).
Proof. unfold saveToXML. mono. Qed.

Lemma monotone_saveToJSON (E : Environment) (filename : string) (data : payload) :
  monotone (saveToJSON E filename data).
Proof. unfold saveToJSON. mono. Qed.

#[local] Hint Resolve monotone_saveToXML monotone_saveToJSON : mono.

Lemma monotone_exportMetricsForHost (E : Environment)
    (token server hostDir hostID : string) :
  monotone (exportMetricsForHost E token server hostDir hostID).
Proof. unfold exportMetricsForHost. mono. Qed.

Lemma monotone_exportTriggersForHost (E : Environment)
    (token server hostDir hostID : string) :
  monotone (exportTriggersForHost E token server hostDir hostID).
Proof. unfold exportTriggersForHost. mono. Qed.

#[local] Hint Resolve monotone_exportMetricsForHost
  monotone_exportTriggersForHost : mono.

Lemma monotone_exportHost (E : Environment) (token server exportDir : string)
    (item : json) :
  monotone (exportHost E token server exportDir item).
Proof. unfold exportHost. mono. Qed.

#[local] Hint Resolve monotone_exportHost : mono.

Lemma monotone_exportHostsWithDetails (E : Environment)
    (token server exportDir : string) :
  monotone (exportHostsWithDetails E token server exportDir).
Proof. unfold exportHostsWithDetails. mono. Qed.

#[local] Hint Resolve monotone_exportHostsWithDetails : mono.

(** X20: however a run of [main] ends (return, fatal exit or panic), it
    has only added to the world: the requests, directory calls, log lines
    and printed lines it started with are a prefix of the final ones, and
    every file that existed before still exists.  The program never
    removes a file. *)
Theorem run_only_adds (E : Environment) (w : World) :
  extends w (snd (main E w)).
Proof.
  revert w. change (monotone (main E)). unfold main.
  destruct (negb (godotenv_Load E)); [eauto with mono |].
  cbv zeta. mono.
Qed.
